(** * GLaDOS check-in client: a shallow embedding of [glados.py]

  Python [str] values are modelled as Rocq [string]s holding the UTF-8
  encoding of the text.  Substring search, splitting on an ASCII separator
  and equality agree on valid UTF-8 with the same operations on code
  points.  [str.lower] is modelled on ASCII letters only: the program uses
  the lowered text solely to look for the ASCII words [got], [repeat] and
  [already], and the only non-ASCII code points that Python lowers to text
  containing an ASCII letter are U+0130 (to [i] + U+0307) and U+212A (to
  [k]); neither letter occurs in those words.

  A [str] that holds an unpaired surrogate (a JSON escape can produce one)
  has no UTF-8 encoding and is outside the model; [print], which raises
  [UnicodeEncodeError] on such a text, is modelled on the texts that the
  console can encode. The properties of whole runs below are therefore
  stated of the runs that end normally. *)

From Stdlib Require Import String Ascii List ZArith Bool Lia.
From Stdlib Require Import Numbers.DecimalString.
From Stdlib Require Numbers.DecimalFacts Numbers.DecimalPos Numbers.DecimalN.
From Stdlib Require Import Floats.SpecFloat.
Import ListNotations.

Set Warnings "-register-all".

Open Scope string_scope.
Open Scope bool_scope.

(** ** Python strings *)

Module Str.

(** [sub in s] *)
Fixpoint contains (sub s : string) : bool :=
  String.prefix sub s
  || match s with
     | EmptyString => false
     | String _ s' => contains sub s'
     end.

Definition lower_ascii (c : ascii) : ascii :=
  let n := nat_of_ascii c in
  if (65 <=? n)%nat && (n <=? 90)%nat then ascii_of_nat (n + 32) else c.

(** [s.lower()], on the ASCII letters *)
Fixpoint lower (s : string) : string :=
  match s with
  | EmptyString => EmptyString
  | String c s' => String (lower_ascii c) (lower s')
  end.

(** [s.split(sep)] for a non-empty [sep]: a left-to-right scan for
    non-overlapping occurrences.  [skip] counts the characters of a matched
    separator still to be passed over, [cur] is the piece being built. *)
Fixpoint split_go (sep : string) (skip : nat) (cur s : string) : list string :=
  match s with
  | EmptyString => [cur]
  | String c s' =>
      match skip with
      | S k => split_go sep k cur s'
      | O =>
          if String.prefix sep s
          then cur :: split_go sep (String.length sep - 1) EmptyString s'
          else split_go sep 0 (cur ++ String c EmptyString) s'
      end
  end.

Definition split (sep s : string) : list string := split_go sep 0 EmptyString s.

(** the text of [s] before the first occurrence of [sep] (all of [s] when
    there is none) *)
Fixpoint before (sep s : string) : string :=
  match s with
  | EmptyString => EmptyString
  | String c s' => if String.prefix sep s then EmptyString else String c (before sep s')
  end.

(** [s.rstrip(c)] for a one-character set *)
Fixpoint rstrip (c : ascii) (s : string) : string :=
  match s with
  | EmptyString => EmptyString
  | String a s' =>
      match rstrip c s' with
      | EmptyString => if Ascii.eqb a c then EmptyString else String a EmptyString
      | t => String a t
      end
  end.

(** decimal text of an integer, as [str(int)] gives it *)
Definition of_Z (z : Z) : string := NilZero.string_of_int (Z.to_int z).

Fixpoint join (sep : string) (l : list string) : string :=
  match l with
  | [] => EmptyString
  | [x] => x
  | x :: r => x ++ sep ++ join sep r
  end.

Definition is_cont_byte (c : ascii) : bool :=
  let n := nat_of_ascii c in (128 <=? n)%nat && (n <? 192)%nat.

(** [len(s)]: the number of code points, i.e. of bytes that do not continue
    a UTF-8 sequence *)
Fixpoint len (s : string) : nat :=
  match s with
  | EmptyString => 0
  | String c s' => (if is_cont_byte c then 0 else 1) + len s'
  end.

(** [s[:n]] on code points *)
Fixpoint take (n : nat) (s : string) : string :=
  match s with
  | EmptyString => EmptyString
  | String c s' =>
      if is_cont_byte c then String c (take n s')
      else match n with
           | O => EmptyString
           | S k => String c (take k s')
           end
  end.

(** the code points of a text: UTF-8 decoding. [acc] holds the bits read of
    a sequence that needs [more] bytes still. *)
Fixpoint code_points_go (acc : N) (more : nat) (s : string) : list N :=
  match s with
  | EmptyString => match more with O => [] | S _ => [acc] end
  | String c s' =>
      let b := N_of_ascii c in
      match more with
      | S k =>
          let acc' := (acc * 64 + b mod 64)%N in
          match k with
          | O => acc' :: code_points_go 0 0 s'
          | S _ => code_points_go acc' k s'
          end
      | O =>
          if (b <? 128)%N then b :: code_points_go 0 0 s'
          else if (b <? 224)%N then code_points_go (b mod 32) 1 s'
          else if (b <? 240)%N then code_points_go (b mod 16) 2 s'
          else code_points_go (b mod 8) 3 s'
      end
  end.

Definition code_points (s : string) : list N := code_points_go 0 0 s.

(** every character is ASCII *)
Fixpoint is_ascii (s : string) : bool :=
  match s with
  | EmptyString => true
  | String c s' => (N_of_ascii c <? 128)%N && is_ascii s'
  end.


Fixpoint rep (c : ascii) (k : nat) : string :=
  match k with
  | O => EmptyString
  | S k' => String c (rep c k')
  end.

End Str.

(** ** Python values and exceptions *)

(** The values the program handles: what [json] decodes a body to, and
    [None] (to which a JSON [null] decodes). A [dict] is kept as the list of
    its items; a [float] is a binary64 number. *)
Inductive value : Type :=
| VNone
| VBool (b : bool)
| VInt (z : Z)
| VFloat (f : spec_float)
| VStr (s : string)
| VList (l : list value)
| VDict (items : list (string * value)).

Inductive exn : Type :=
| AttributeError (obj : value) (attr : string)
| KeyError (key : string)
| TypeError (obj : value)
| ValueError (obj : value)
| OverflowError (obj : value)
| JSONDecodeError (detail : string)
| OtherError (name detail : string).

Inductive result (A : Type) : Type :=
| Ok (a : A)
| Raise (e : exn).
Arguments Ok {A} a.
Arguments Raise {A} e.

(** What is left to the Python runtime: the text of a float, list or dict
    (or the exception its conversion raises), [repr] of a string, the
    message of an exception, [strftime] with the format ["%Y-%m-%d %H:%M"]
    on a time given in seconds, the limit on the digits of an integer
    converted to text ([sys.get_int_max_str_digits()], 0 for none), and the
    decimal value that the Unicode database of the interpreter gives a
    non-ASCII code point. *)
Record runtime : Type := {
  repr_other : value -> result string;
  repr_str : string -> string;
  exn_text : exn -> string;
  strftime_minute : Z -> string;
  int_max_str_digits : Z;
  unicode_decimal : N -> option N
}.

(** truth value of an object, as [if x], [not x] and [x or y] test it *)
Definition truthy (v : value) : bool :=
  match v with
  | VNone => false
  | VBool b => b
  | VInt z => negb (z =? 0)%Z
  | VFloat (S754_zero _) => false
  | VFloat _ => true
  | VStr s => negb (s =? "")
  | VList l => match l with [] => false | _ :: _ => true end
  | VDict items => match items with [] => false | _ :: _ => true end
  end.

Definition is_none (v : value) : bool :=
  match v with VNone => true | _ => false end.

(** lookup in the items of a dict *)
Fixpoint dict_find (items : list (string * value)) (key : string) : option value :=
  match items with
  | [] => None
  | (k, v) :: r => if k =? key then Some v else dict_find r key
  end.

(** [obj.get(key, default)]: only a dict has the method *)
Definition value_get (obj : value) (key : string) (default : value) : result value :=
  match obj with
  | VDict items =>
      match dict_find items key with
      | Some v => Ok v
      | None => Ok default
      end
  | _ => Raise (AttributeError obj "get")
  end.

(** [obj[key]] for a string key *)
Definition value_item (obj : value) (key : string) : result value :=
  match obj with
  | VDict items =>
      match dict_find items key with
      | Some v => Ok v
      | None => Raise (KeyError key)
      end
  | _ => Raise (TypeError obj)
  end.

(** [str(z)] for an int: a [ValueError] when the limit on digits is set and
    the number has more digits than the limit (CPython applies the limit
    above 640 digits only) *)
Definition int_text (rt : runtime) (z : Z) : result string :=
  if (0 <? int_max_str_digits rt)%Z
     && (10 ^ Z.max (int_max_str_digits rt) 640 <=? Z.abs z)%Z
  then Raise (ValueError (VInt z))
  else Ok (Str.of_Z z).

(** [f"{v}"] *)
Definition py_str (rt : runtime) (v : value) : result string :=
  match v with
  | VNone => Ok "None"
  | VBool true => Ok "True"
  | VBool false => Ok "False"
  | VInt z => int_text rt z
  | VStr s => Ok s
  | _ => repr_other rt v
  end.

(** ** Outcome Translator *)

(** [raw_message.split("Got ")[1].split(" Points")[0]] under its [try]:
    [VNone] stands for the exception caught there. *)
Definition extract_points (raw_message : value) : value :=
  match raw_message with
  | VStr s =>
      match nth_error (Str.split "Got " s) 1 with
      | Some seg =>
          match nth_error (Str.split " Points" seg) 0 with
          | Some p => VStr p
          | None => VNone
          end
      | None => VNone
      end
  | _ => VNone
  end.

(** [(raw_message or "").lower()] *)
Definition msg_lower_of (raw_message : value) : result string :=
  match (if truthy raw_message then raw_message else VStr "") with
  | VStr s => Ok (Str.lower s)
  | v => Raise (AttributeError v "lower")
  end.

(** [v == s] for a string literal [s] *)
Definition value_eq_str (v : value) (s : string) : bool :=
  match v with
  | VStr t => t =? s
  | _ => false
  end.

Definition translate_message (rt : runtime) (raw_message points : value) : result string :=
  if value_eq_str raw_message "Please Try Tomorrow"
  then Ok "签到失败，请明天再试 🤖"
  else
    match msg_lower_of raw_message with
    | Raise e => Raise e
    | Ok msg_lower =>
        if Str.contains "got" msg_lower then
          let points := if is_none points then extract_points raw_message else points in
          if negb (is_none points)
          then
            match py_str rt points with
            | Ok text => Ok ("签到成功，获得" ++ text ++ "积分 🎉")
            | Raise e => Raise e
            end
          else
            match py_str rt raw_message with
            | Ok text => Ok ("签到成功 🎉 (" ++ text ++ ")")
            | Raise e => Raise e
            end
        else if Str.contains "repeat" msg_lower || Str.contains "already" msg_lower
        then Ok "重复签到，请明天再试 🔁"
        else if truthy raw_message
        then
          match py_str rt raw_message with
          | Ok text => Ok ("未知的签到结果: " ++ text ++ " ❓")
          | Raise e => Raise e
          end
        else Ok "未知的签到结果: (empty message) ❓"
    end.

(** ** Python floats

    A [float] is a binary64 number, held as a [spec_float] whose value is
    [m * 2^e]; every operation below depends on that value only.
    Conversions round to nearest, ties to even, as CPython's do. *)

Module PyFloat.

(** [n/d] rounded to the nearest integer, ties to even *)
Definition round_half_even (n d : Z) : Z :=
  let q := (n / d)%Z in
  let r := (n mod d)%Z in
  if (2 * r <? d)%Z then q
  else if (d <? 2 * r)%Z then (q + 1)%Z
  else if Z.even q then q else (q + 1)%Z.

(** the integer part of the binary logarithm of [n/d] *)
Definition ilog2_ratio (n d : positive) : Z :=
  let g := (Z.log2 (Z.pos n) - Z.log2 (Z.pos d))%Z in
  if (Z.pos n * 2 ^ Z.max 0 (- g) <? Z.pos d * 2 ^ Z.max 0 g)%Z
  then (g - 1)%Z else g.

(** The float nearest to [n/d]: the quotient is rounded to a multiple of
    [2^e], where [e] leaves 53 bits to a normal number and is -1074 for a
    subnormal one; the result is infinite from [2^1024] on. *)
Definition of_ratio (neg : bool) (n d : positive) : spec_float :=
  let e := Z.max (ilog2_ratio n d - 52) (-1074) in
  let q :=
    if (0 <=? e)%Z then round_half_even (Z.pos n) (Z.pos d * 2 ^ e)
    else round_half_even (Z.pos n * 2 ^ (- e)) (Z.pos d) in
  match q with
  | Z.pos m =>
      if (0 <=? e)%Z && (2 ^ 1024 <=? q * 2 ^ e)%Z then S754_infinity neg
      else if (q =? 2 ^ 53)%Z then S754_finite neg (2 ^ 52) (e + 1)
      else S754_finite neg m e
  | _ => S754_zero neg
  end.

(** the float nearest to [mantissa * 10^exp10], for [0 <= mantissa] *)
Definition of_decimal (neg : bool) (mantissa exp10 : Z) : spec_float :=
  match mantissa with
  | Zpos m =>
      if (0 <=? exp10)%Z
      then of_ratio neg (m * Z.to_pos (10 ^ exp10)) 1
      else of_ratio neg m (Z.to_pos (10 ^ (- exp10)))
  | _ => S754_zero neg
  end.

(** [float(z)] for an int *)
Definition of_int (z : Z) : result spec_float :=
  match z with
  | Z0 => Ok (S754_zero false)
  | Zpos p =>
      match of_ratio false p 1 with
      | S754_infinity _ => Raise (OverflowError (VInt z))
      | f => Ok f
      end
  | Zneg p =>
      match of_ratio true p 1 with
      | S754_infinity _ => Raise (OverflowError (VInt z))
      | f => Ok f
      end
  end.

(** the blanks of the C locale *)
Definition is_space (c : ascii) : bool :=
  let n := nat_of_ascii c in
  ((9 <=? n)%nat && (n <=? 13)%nat) || (n =? 32)%nat.

Definition is_digit (c : ascii) : bool :=
  let n := nat_of_ascii c in (48 <=? n)%nat && (n <=? 57)%nat.

Definition digit_val (c : ascii) : Z := Z.of_nat (nat_of_ascii c) - 48.

(** the blanks of Unicode that are not ASCII *)
Definition is_unicode_space (cp : N) : bool :=
  ((cp =? 133) || (cp =? 160) || (cp =? 5760)
   || ((8192 <=? cp) && (cp <=? 8202))
   || (cp =? 8232) || (cp =? 8233) || (cp =? 8239) || (cp =? 8287)
   || (cp =? 12288))%N.

(** A text that is not ASCII is first brought to ASCII: a blank becomes a
    space, a decimal digit its ASCII digit, and at the first other
    character above 126 the text ends with a question mark. *)
Fixpoint to_ascii (rt : runtime) (cps : list N) : string :=
  match cps with
  | [] => EmptyString
  | cp :: r =>
      if (cp <? 127)%N then String (ascii_of_N cp) (to_ascii rt r)
      else if is_unicode_space cp then String " " (to_ascii rt r)
      else
        match unicode_decimal rt cp with
        | Some d =>
            if (d <? 10)%N then String (ascii_of_N (48 + d)) (to_ascii rt r)
            else "?"
        | None => "?"
        end
  end.

Definition transform (rt : runtime) (s : string) : string :=
  if Str.is_ascii s then s else to_ascii rt (Str.code_points s).

Fixpoint lstrip (s : string) : string :=
  match s with
  | EmptyString => EmptyString
  | String c s' => if is_space c then lstrip s' else s
  end.

Fixpoint rstrip_space (s : string) : string :=
  match s with
  | EmptyString => EmptyString
  | String c s' =>
      match rstrip_space s' with
      | EmptyString => if is_space c then EmptyString else String c EmptyString
      | t => String c t
      end
  end.

(** An underscore is allowed only between two digits; the text is read
    without them. [prev] is the character before [s]. *)
Fixpoint drop_underscores (prev : ascii) (s : string) : option string :=
  match s with
  | EmptyString => if Ascii.eqb prev "_" then None else Some EmptyString
  | String c s' =>
      if Ascii.eqb c "_"
      then (if is_digit prev then drop_underscores c s' else None)
      else if Ascii.eqb prev "_" && negb (is_digit c) then None
           else option_map (String c) (drop_underscores c s')
  end.

Definition parse_sign (s : string) : bool * string :=
  match s with
  | String "-" r => (true, r)
  | String "+" r => (false, r)
  | _ => (false, s)
  end.

(** reads a run of digits after the number [acc]: the number read, how many
    digits it took, and the rest of the text *)
Fixpoint read_digits (acc count : Z) (s : string) : Z * Z * string :=
  match s with
  | EmptyString => (acc, count, s)
  | String c s' =>
      if is_digit c
      then read_digits (10 * acc + digit_val c) (count + 1) s'
      else (acc, count, s)
  end.

(** digits with an optional point and an optional exponent, up to the end of
    the text *)
Definition parse_number (neg : bool) (s : string) : option spec_float :=
  let '(ip, n_ip, r1) := read_digits 0 0 s in
  let '(m, n_fp, r2) :=
    match r1 with
    | String "." r => read_digits ip 0 r
    | _ => (ip, 0%Z, r1)
    end in
  if (n_ip + n_fp =? 0)%Z then None
  else
    match r2 with
    | EmptyString => Some (of_decimal neg m (- n_fp))
    | String c r3 =>
        if Ascii.eqb c "e" || Ascii.eqb c "E" then
          let '(eneg, r4) := parse_sign r3 in
          let '(x, n_x, r5) := read_digits 0 0 r4 in
          if (n_x =? 0)%Z then None
          else
            match r5 with
            | EmptyString => Some (of_decimal neg m ((if eneg then - x else x) - n_fp))
            | _ => None
            end
        else None
    end.

Definition parse_inf_nan (neg : bool) (s : string) : option spec_float :=
  let l := Str.lower s in
  if (l =? "inf") || (l =? "infinity") then Some (S754_infinity neg)
  else if l =? "nan" then Some S754_nan
  else None.

(** [float(s)] for a string; [None] is its [ValueError] *)
Definition of_string (rt : runtime) (s : string) : option spec_float :=
  match drop_underscores zero (transform rt s) with
  | None => None
  | Some s1 =>
      let '(neg, s2) := parse_sign (rstrip_space (lstrip s1)) in
      match parse_number neg s2 with
      | Some f => Some f
      | None => parse_inf_nan neg s2
      end
  end.

Definition one : spec_float := S754_finite false 4503599627370496 (-52).

(** [float(v)] *)
Definition of_value (rt : runtime) (v : value) : result spec_float :=
  match v with
  | VStr s =>
      match of_string rt s with
      | Some f => Ok f
      | None => Raise (ValueError v)
      end
  | VInt z => of_int z
  | VFloat f => Ok f
  | VBool b => Ok (if b then one else S754_zero false)
  | _ => Raise (TypeError v)
  end.

(** [f.is_integer()] *)
Definition is_integer (f : spec_float) : bool :=
  match f with
  | S754_zero _ => true
  | S754_finite _ m e =>
      if (0 <=? e)%Z then true else (Z.pos m mod 2 ^ (- e) =? 0)%Z
  | _ => false
  end.

(** [int(f)]: truncation towards zero *)
Definition to_int (f : spec_float) : result Z :=
  match f with
  | S754_zero _ => Ok 0%Z
  | S754_finite s m e =>
      let a := if (0 <=? e)%Z then (Z.pos m * 2 ^ e)%Z else (Z.pos m / 2 ^ (- e))%Z in
      Ok (if s then (- a)%Z else a)
  | S754_infinity _ => Raise (OverflowError (VFloat f))
  | S754_nan => Raise (ValueError (VFloat f))
  end.

(** [s.zfill(8)] for the digits of a number below 10^8 *)
Definition zfill8 (s : string) : string :=
  Str.rep "0" (8 - String.length s) ++ s.

Definition sign_text (s : bool) : string := if s then "-" else EmptyString.

(** [f"{f:.8f}"] *)
Definition format_8f (f : spec_float) : string :=
  match f with
  | S754_nan => "nan"
  | S754_infinity s => sign_text s ++ "inf"
  | S754_zero s => sign_text s ++ "0.00000000"
  | S754_finite s m e =>
      let scaled :=
        if (0 <=? e)%Z then (Z.pos m * 2 ^ e * 10 ^ 8)%Z
        else round_half_even (Z.pos m * 10 ^ 8) (2 ^ (- e)) in
      sign_text s ++ Str.of_Z (scaled / 10 ^ 8) ++ "."
        ++ zfill8 (Str.of_Z (scaled mod 10 ^ 8))
  end.

End PyFloat.

(** ** Days-remaining formatter *)

Definition format_days (rt : runtime) (days_str : value) : result string :=
  match PyFloat.of_value rt days_str with
  | Raise e => Raise e
  | Ok days =>
      if PyFloat.is_integer days then
        match PyFloat.to_int days with
        | Raise e => Raise e
        | Ok n => Ok (Str.of_Z n)
        end
      else Ok (Str.rstrip "." (Str.rstrip "0" (PyFloat.format_8f days)))
  end.

(** ** The outside world

    A run is a function of the history of its effects: every effect is
    appended to the history, and what the network, the clock and the random
    generator answer may depend on all that happened before. *)

Inductive body : Type :=
| NoBody
| JsonBody (payload : value)                (* [data=json.dumps(payload)] *)
| FormBody (fields : list (string * string)).

Record request : Type := {
  rq_method : string;
  rq_url : string;
  rq_headers : list (string * string);
  rq_data : body;
  rq_proxies : option (list (string * string));
  rq_timeout : Z
}.

Record response : Type := {
  status_code : Z;
  resp_url : string;
  resp_content_type : option string;   (* [headers.get("Content-Type")] *)
  resp_text : string;
  resp_json : result value;            (* what [resp.json()] returns or raises *)
  resp_http_error : string             (* text of the error of [raise_for_status] *)
}.

(** How a call to [requests.get] or [requests.post] ends: with a response,
    with a [requests.RequestException], or with an exception of another
    class, which the [except requests.RequestException] clauses of the
    program do not catch (the library raises [ValueError] for a timeout that
    is not positive and [UnicodeEncodeError] for a header value outside
    latin-1, for instance). *)
Inductive http_result : Type :=
| Response (r : response)
| RequestException (detail : string)
| OtherException (e : exn).

(** the effects of a run: a line on the console, a call of [requests.get]
    or [requests.post], a pause *)
Inductive event : Type :=
| EPrint (line : string)
| ERequest (rq : request)
| ESleep (seconds : Z).

Definition history : Type := list event.

Record world : Type := {
  http : history -> request -> http_result;
  randint : history -> Z -> Z -> Z;
  utcnow : history -> Z                      (* seconds *)
}.

(** Module constants, read from the environment when the module loads. *)
Record config : Type := {
  BASE_URL : string;
  TOKEN : string;
  TIMEOUT : Z;
  DEBUG : bool
}.

Definition CHECKIN_URL (cfg : config) : string := BASE_URL cfg ++ "/api/user/checkin".
Definition STATUS_URL (cfg : config) : string := BASE_URL cfg ++ "/api/user/status".

Definition USER_AGENT : string :=
  "Mozilla/5.0 (Windows NT 10.0; Win64; x64) "
  ++ "AppleWebKit/537.36 (KHTML, like Gecko) "
  ++ "Chrome/120.0.0.0 Safari/537.36".

(** A computation: from the history so far to a value or an exception, and
    the history after it. *)
Definition M (A : Type) : Type := history -> result A * history.

Definition ret {A} (a : A) : M A := fun h => (Ok a, h).

Definition bind {A B} (m : M A) (k : A -> M B) : M B :=
  fun h =>
    match m h with
    | (Ok a, h') => k a h'
    | (Raise e, h') => (Raise e, h')
    end.

Definition lift {A} (r : result A) : M A := fun h => (r, h).

Definition emit (e : event) : M unit := fun h => (Ok tt, (h ++ [e])%list).

Notation "x <- m ;; k" := (bind m (fun x => k))
  (at level 61, m at next level, right associativity).
Notation "m ;; k" := (bind m (fun _ => k))
  (at level 61, right associativity).

Definition print (line : string) : M unit := emit (EPrint line).

Definition sleep (seconds : Z) : M unit := emit (ESleep seconds).

(** A call of [requests.get] or [requests.post]: the call is recorded in
    the history; an exception that is no [RequestException] is raised to the
    caller, whose handler does not catch it. *)
Definition send (w : world) (rq : request) : M http_result :=
  fun h =>
    (match http w h rq with
     | OtherException e => Raise e
     | r => Ok r
     end, (h ++ [ERequest rq])%list).

Definition random_randint (w : world) (lo hi : Z) : M Z :=
  fun h => (Ok (randint w h lo hi), h).

Definition datetime_utcnow (w : world) : M Z :=
  fun h => (Ok (utcnow w h), h).

(** [utcnow() + timedelta(hours=8)], formatted to the minute *)
Definition beijing_minute (rt : runtime) (w : world) : M string :=
  now <- datetime_utcnow w ;;
  ret (strftime_minute rt (now + 8 * 3600)).

(** ** Response Decoder *)

Definition debug_log (cfg : config) (msg : string) : M unit :=
  if DEBUG cfg then print msg else ret tt.

(** what [debug_log] adds to the history *)
Definition debug_events (cfg : config) (msg : string) : history :=
  if DEBUG cfg then [EPrint msg] else [].

Definition option_text (o : option string) : string :=
  match o with
  | Some s => s
  | None => "None"
  end.

(** [None] is [VNone], to which a JSON [null] decodes as well. *)
Definition safe_json (rt : runtime) (cfg : config) (resp : response) (ctx : string) : M value :=
  match resp_json resp with
  | Ok v => ret v
  | Raise e =>
      let ct := match resp_content_type resp with Some c => c | None => "" end in
      let head := Str.take 200 (resp_text resp) in
      debug_log cfg
        ("[DEBUG] " ++ ctx ++ " JSON decode failed: " ++ exn_text rt e ++ "; "
         ++ "status=" ++ Str.of_Z (status_code resp) ++ "; url=" ++ resp_url resp
         ++ "; ct=" ++ ct ++ "; head=" ++ repr_str rt head) ;;
      ret VNone
  end.

(** ** Account Client *)

Definition generate_headers (cfg : config) (cookie : string) : list (string * string) :=
  [ ("Accept", "application/json, text/plain, */*");
    ("Content-Type", "application/json;charset=UTF-8");
    ("Cookie", cookie);
    ("Origin", BASE_URL cfg);
    ("Referer", BASE_URL cfg ++ "/console/checkin");
    ("User-Agent", USER_AGENT) ].

Fixpoint headers_get (headers : list (string * string)) (key : string) : option string :=
  match headers with
  | [] => None
  | (k, v) :: r => if k =? key then Some v else headers_get r key
  end.

Definition status_request (cfg : config) (cookie : string)
    (proxy : option (list (string * string))) : request :=
  {| rq_method := "GET"; rq_url := STATUS_URL cfg;
     rq_headers := generate_headers cfg cookie; rq_data := NoBody;
     rq_proxies := proxy; rq_timeout := TIMEOUT cfg |}.

Definition checkin_request (cfg : config) (cookie : string)
    (proxy : option (list (string * string))) : request :=
  {| rq_method := "POST"; rq_url := CHECKIN_URL cfg;
     rq_headers := generate_headers cfg cookie;
     rq_data := JsonBody (VDict [("token", VStr (TOKEN cfg))]);
     rq_proxies := proxy; rq_timeout := TIMEOUT cfg |}.

(** the body of the [try] of [check_account_status] *)
Definition left_days_line (rt : runtime) (email : string) (data : value) : result string :=
  match value_item data "data" with
  | Raise e => Raise e
  | Ok d =>
      match value_item d "leftDays" with
      | Raise e => Raise e
      | Ok days_str =>
          match format_days rt days_str with
          | Raise e => Raise e
          | Ok left_days => Ok ("<b>" ++ email ++ "</b>: 剩余 " ++ left_days ++ " 天 🗓️")
          end
      end
  end.

Definition status_debug_line (cfg : config) : string :=
  "[DEBUG] email/status -> " ++ STATUS_URL cfg.

Definition check_account_status (rt : runtime) (w : world) (cfg : config)
    (email cookie : string) (proxy : option (list (string * string))) : M string :=
  debug_log cfg (status_debug_line cfg) ;;
  r <- send w (status_request cfg cookie proxy) ;;
  match r with
  | OtherException e => lift (Raise e)
  | RequestException e =>
      ret ("<b>" ++ email ++ "</b>: 获取状态失败 - " ++ e ++ " ❌")
  | Response response =>
      data <- safe_json rt cfg response (email ++ "/status") ;;
      if negb (truthy data)
      then ret ("<b>" ++ email ++ "</b>: 解析响应失败 - HTTP "
                ++ Str.of_Z (status_code response) ++ " ❌")
      else
        match left_days_line rt email data with
        | Ok line => ret line
        | Raise e => ret ("<b>" ++ email ++ "</b>: 解析响应失败 - " ++ exn_text rt e ++ " ❌")
        end
  end.

Definition checkin_debug_line (cfg : config) (cookie : string) : string :=
  let headers := generate_headers cfg cookie in
  "[DEBUG] email/checkin -> " ++ CHECKIN_URL cfg ++ " "
  ++ "origin=" ++ option_text (headers_get headers "Origin")
  ++ " referer=" ++ option_text (headers_get headers "Referer") ++ " "
  ++ "ua=" ++ option_text (headers_get headers "User-Agent")
  ++ " cookie_len=" ++ Str.of_Z (Z.of_nat (Str.len cookie)).

Definition sign (rt : runtime) (w : world) (cfg : config)
    (email cookie : string) (proxy : option (list (string * string))) : M string :=
  debug_log cfg (checkin_debug_line cfg cookie) ;;
  r <- send w (checkin_request cfg cookie proxy) ;;
  match r with
  | OtherException e => lift (Raise e)
  | RequestException e =>
      let translated_message := "请求失败: " ++ e in
      t <- beijing_minute rt w ;;
      print (t ++ " " ++ email ++ ": " ++ translated_message) ;;
      ret ("<b>" ++ email ++ "</b>: " ++ translated_message)
  | Response response =>
      debug_log cfg
        ("[DEBUG] email/checkin response status=" ++ Str.of_Z (status_code response) ++ " "
         ++ "url=" ++ resp_url response ++ " ct="
         ++ match resp_content_type response with Some c => c | None => "" end) ;;
      response_data <- safe_json rt cfg response (email ++ "/checkin") ;;
      translated_message <-
        (if negb (truthy response_data)
         then ret ("解析响应失败: HTTP " ++ Str.of_Z (status_code response))
         else
           raw_message <- lift (value_get response_data "message" (VStr "")) ;;
           points <- lift (value_get response_data "points" VNone) ;;
           lift (translate_message rt raw_message points)) ;;
      t <- beijing_minute rt w ;;
      print (t ++ " em: " ++ translated_message) ;;
      ret ("<b>" ++ email ++ "</b>: " ++ translated_message)
  end.

(** ** Notification sink *)

Definition nl : string := String (ascii_of_nat 10) EmptyString.

Definition send_notification (rt : runtime) (w : world) (cfg : config)
    (sign_messages status_messages : list string) (bot_token chat_id : string) : M unit :=
  let url := "https://api.telegram.org/bot" ++ bot_token ++ "/sendMessage" in
  let sign_text := "🔔 GLaDOS 签到结果:" ++ nl ++ Str.join nl sign_messages in
  let status_text := nl ++ "⏳ GLaDOS 账号状态:" ++ nl ++ Str.join nl status_messages in
  current_time <- beijing_minute rt w ;;
  let text := "🕒 当前时间: " ++ current_time ++ nl ++ nl ++ sign_text ++ nl
              ++ status_text ++ nl ++ nl ++ "✅ 签到任务完成" in
  let data := [("chat_id", chat_id); ("text", text); ("parse_mode", "HTML")] in
  r <- send w {| rq_method := "POST"; rq_url := url; rq_headers := [];
                 rq_data := FormBody data; rq_proxies := None;
                 rq_timeout := TIMEOUT cfg |} ;;
  match r with
  | OtherException e => lift (Raise e)
  | RequestException e => print ("发送 Telegram 消息失败: " ++ e)
  | Response response =>
      (* [response.raise_for_status()] *)
      if (400 <=? status_code response)%Z && (status_code response <? 600)%Z
      then print ("发送 Telegram 消息失败: " ++ resp_http_error response)
      else ret tt
  end.

(** ** Session Orchestrator *)

(** [os.getenv], after [load_dotenv()] where it is installed *)
Definition environ : Type := string -> option string.

Definition env_truthy (o : option string) : bool :=
  match o with
  | Some s => negb (s =? "")
  | None => false
  end.

Definition build_proxies (getenv : environ) : option (list (string * string)) :=
  let http := match getenv "HTTP_PROXY" with Some s => s | None => "" end in
  let https := match getenv "HTTPS_PROXY" with Some s => s | None => "" end in
  let proxies :=
    ((if negb (http =? "") then [("http", http)] else [])
     ++ (if negb (https =? "") then [("https", https)] else []))%list in
  match proxies with
  | [] => None
  | _ :: _ => Some proxies
  end.

(** The [while True] loop that reads the numbered accounts; [None] when it
    has not ended within [fuel] turns. *)
Fixpoint load_accounts (fuel : nat) (getenv : environ) (i : Z)
    (accounts : list (string * string)) : option (list (string * string)) :=
  match fuel with
  | O => None
  | S fuel' =>
      match getenv ("GLADOS_EMAIL_" ++ Str.of_Z i), getenv ("GLADOS_COOKIE_" ++ Str.of_Z i) with
      | Some email, Some cookie =>
          if (email =? "") || (cookie =? "") then Some accounts
          else load_accounts fuel' getenv (i + 1) (accounts ++ [(email, cookie)])%list
      | _, _ => Some accounts
      end
  end.

(** The [for] loop over the accounts. *)
Fixpoint run_accounts (rt : runtime) (w : world) (cfg : config)
    (proxy : option (list (string * string))) (accounts : list (string * string))
    (sign_messages status_messages : list string) : M (list string * list string) :=
  match accounts with
  | [] => ret (sign_messages, status_messages)
  | (email, cookie) :: rest =>
      sign_result <- sign rt w cfg email cookie proxy ;;
      status_result <- check_account_status rt w cfg email cookie proxy ;;
      seconds <- random_randint w 5 15 ;;
      sleep seconds ;;
      run_accounts rt w cfg proxy rest
        (sign_messages ++ [sign_result])%list (status_messages ++ [status_result])%list
  end.

Definition multi_account_sign (rt : runtime) (w : world) (cfg : config)
    (getenv : environ) (fuel : nat) : option (M unit) :=
  let bot_token := getenv "TG_BOT_TOKEN" in
  let chat_id := getenv "TG_CHAT_ID" in
  let proxy := build_proxies getenv in
  match load_accounts fuel getenv 1 [] with
  | None => None
  | Some [] => Some (print "未找到账号信息，请检查环境变量或 .env 文件")
  | Some accounts =>
      Some
        ((if negb (env_truthy bot_token) || negb (env_truthy chat_id)
          then print "未设置 TG_BOT_TOKEN / TG_CHAT_ID，将只在控制台输出，不发送 Telegram 通知"
          else ret tt) ;;
         messages <- run_accounts rt w cfg proxy accounts [] [] ;;
         match bot_token, chat_id with
         | Some token, Some chat =>
             if negb (token =? "") && negb (chat =? "")
             then send_notification rt w cfg (fst messages) (snd messages) token chat
             else ret tt
         | _, _ => ret tt
         end)
  end.

(** The network and pacing effects of a history: its requests and sleeps,
    without the console lines. *)
Definition is_print (e : event) : bool :=
  match e with
  | EPrint _ => true
  | _ => false
  end.

Definition outbound (h : history) : history := filter (fun e => negb (is_print e)) h.

Definition is_sleep (e : event) : bool :=
  match e with
  | ESleep _ => true
  | _ => false
  end.

Definition sleeps (h : history) : nat := List.length (filter is_sleep h).

Definition is_request (e : event) : bool :=
  match e with
  | ERequest _ => true
  | _ => false
  end.

Definition requests_of (h : history) : history := filter is_request h.

(** ** Reference readings of the extraction heuristic *)

(** the text of [s] after the first occurrence of [sep], when there is one *)
Fixpoint after (sep s : string) : option string :=
  match s with
  | EmptyString => None
  | String _ s' =>
      if String.prefix sep s
      then Some (String.substring (String.length sep) (String.length s) s)
      else after sep s'
  end.

(** the text of [s] up to the first place where ["Got "] or [" Points"]
    begins (all of [s] when neither occurs) *)
Fixpoint until_marker (s : string) : string :=
  match s with
  | EmptyString => EmptyString
  | String c s' =>
      if String.prefix "Got " s || String.prefix " Points" s
      then EmptyString
      else String c (until_marker s')
  end.

(** [s] has no capital G *)
Definition no_G (s : string) : bool :=
  forallb (fun c => negb (Ascii.eqb c "G")) (list_ascii_of_string s).

(** the display templates of the outcomes *)
Definition retry_tomorrow : string := "签到失败，请明天再试 🤖".
Definition already_checked_in : string := "重复签到，请明天再试 🔁".
Definition empty_placeholder : string := "未知的签到结果: (empty message) ❓".
Definition success_with (points : string) : string := "签到成功，获得" ++ points ++ "积分 🎉".
Definition success_verbatim (message : string) : string := "签到成功 🎉 (" ++ message ++ ")".
Definition unknown_message (message : string) : string := "未知的签到结果: " ++ message ++ " ❓".

(** the report lines of a response with no usable payload *)
Definition checkin_decode_failure (email : string) (status : Z) : string :=
  "<b>" ++ email ++ "</b>: 解析响应失败: HTTP " ++ Str.of_Z status.

Definition status_decode_failure (email : string) (status : Z) : string :=
  "<b>" ++ email ++ "</b>: 解析响应失败 - HTTP " ++ Str.of_Z status ++ " ❌".

(** [resp.json()] raised, or gave an object that tests false *)
Definition no_payload (r : result value) : bool :=
  match r with
  | Ok v => negb (truthy v)
  | Raise _ => true
  end.

(** [false] exactly of a response that [sign] cannot read: one whose payload
    tests true and is no dict, or is a dict whose [message] tests true and
    is no string. *)
Definition checkin_answer_ok (r : http_result) : bool :=
  match r with
  | RequestException _ => true
  | OtherException _ => true
  | Response resp =>
      no_payload (resp_json resp)
      || match resp_json resp with
         | Ok (VDict items) =>
             match dict_find items "message" with
             | Some (VStr _) => true
             | Some m => negb (truthy m)
             | None => true
             end
         | _ => false
         end
  end.

(** ** Sample surroundings, for concrete runs *)

(** the first code points of the runs of ten decimal digits outside ASCII,
    in the Unicode database (version 14) of CPython 3.11 *)
Definition decimal_blocks : list N :=
  [ 1632; 1776; 1984; 2406; 2534; 2662; 2790; 2918; 3046; 3174; 3302; 3430;
    3558; 3664; 3792; 3872; 4160; 4240; 6112; 6160; 6470; 6608; 6784; 6800;
    6992; 7088; 7232; 7248; 42528; 43216; 43264; 43472; 43504; 43600; 44016;
    65296; 66720; 68912; 69734; 69872; 69942; 70096; 70384; 70736; 70864;
    71248; 71360; 71472; 71904; 72016; 72784; 73040; 73120; 92768; 92864;
    93008; 120782; 120792; 120802; 120812; 120822; 123200; 123632; 125264;
    130032 ]%N.

Definition sample_decimal (cp : N) : option N :=
  match find (fun start => (start <=? cp)%N && (cp <? start + 10)%N) decimal_blocks with
  | Some start => Some (cp - start)%N
  | None => None
  end.

Definition sample_runtime : runtime :=
  {| repr_other := fun _ => Ok "<object>";
     repr_str := fun s => "'" ++ s ++ "'";
     exn_text := fun _ => "<error>";
     strftime_minute := fun t => Str.of_Z t;
     int_max_str_digits := 4300;
     unicode_decimal := sample_decimal |}.

Definition sample_config : config :=
  {| BASE_URL := "https://glados.cloud"; TOKEN := "glados.cloud";
     TIMEOUT := 10; DEBUG := false |}.

Definition sample_response (code : Z) (payload : result value) : response :=
  {| status_code := code; resp_url := "https://glados.cloud/";
     resp_content_type := Some "text/html"; resp_text := "<html>";
     resp_json := payload; resp_http_error := "HTTP error" |}.

(** a network that is down, a clock at zero and the shortest pause *)
Definition offline_world : world :=
  {| http := fun _ _ => RequestException "connection refused";
     randint := fun _ lo _ => lo;
     utcnow := fun _ => 0%Z |}.

(** a network that answers every request with the same response *)
Definition constant_world (r : response) : world :=
  {| http := fun _ _ => Response r;
     randint := fun _ lo _ => lo;
     utcnow := fun _ => 0%Z |}.

(** an environment that configures the accounts [a@x.io] and [b@x.io] *)
Definition two_accounts_env : environ :=
  fun name =>
    if name =? "GLADOS_EMAIL_1" then Some "a@x.io"
    else if name =? "GLADOS_COOKIE_1" then Some "cookie-a"
    else if name =? "GLADOS_EMAIL_2" then Some "b@x.io"
    else if name =? "GLADOS_COOKIE_2" then Some "cookie-b"
    else None.

Definition empty_env : environ := fun _ => None.

(** ** Reference shape of a paced run *)

(** what the loop sends for [accounts]: per account, in order, its check-in
    request, its status request and one sleep *)
Fixpoint paced (cfg : config) (proxy : option (list (string * string)))
    (accounts : list (string * string)) (sent : history) : Prop :=
  match accounts with
  | [] => sent = []
  | (_, cookie) :: rest =>
      exists seconds sent',
        sent = ERequest (checkin_request cfg cookie proxy)
               :: ERequest (status_request cfg cookie proxy)
               :: ESleep seconds :: sent'
        /\ paced cfg proxy rest sent'
  end.

(** both notification settings are present *)
Definition notified (getenv : environ) : bool :=
  env_truthy (getenv "TG_BOT_TOKEN") && env_truthy (getenv "TG_CHAT_ID").

Definition no_accounts_line : string := "未找到账号信息，请检查环境变量或 .env 文件".

(** ** Reference reading of decimal texts *)




(** ** Reference readings for the account client *)

(** what [sign] makes of a response: the message it reports, or the
    exception it lets through *)
Definition response_message (rt : runtime) (resp : response) : result string :=
  let response_data := match resp_json resp with Ok v => v | Raise _ => VNone end in
  if negb (truthy response_data)
  then Ok ("解析响应失败: HTTP " ++ Str.of_Z (status_code resp))
  else
    match value_get response_data "message" (VStr "") with
    | Raise e => Raise e
    | Ok raw_message =>
        match value_get response_data "points" VNone with
        | Raise e => Raise e
        | Ok points => translate_message rt raw_message points
        end
    end.

(** the report line of an account *)
Definition report_line (email message : string) : string :=
  "<b>" ++ email ++ "</b>: " ++ message.

(** ** Reference reading of the numbered accounts *)

(** account number [i] has an identifier and a credential, both non-empty *)
Definition configured (getenv : environ) (i : Z) : bool :=
  env_truthy (getenv ("GLADOS_EMAIL_" ++ Str.of_Z i))
  && env_truthy (getenv ("GLADOS_COOKIE_" ++ Str.of_Z i)).

Definition account_at (getenv : environ) (i : Z) : string * string :=
  (match getenv ("GLADOS_EMAIL_" ++ Str.of_Z i) with Some s => s | None => "" end,
   match getenv ("GLADOS_COOKIE_" ++ Str.of_Z i) with Some s => s | None => "" end).

(** accounts number [i], [i + 1], ..., [i + n - 1] *)
Definition accounts_from (getenv : environ) (i : Z) (n : nat) : list (string * string) :=
  map (fun j => account_at getenv (i + Z.of_nat j)) (seq 0 n).

(** the line begins with the identifier of the account *)
Definition line_of (account : string * string) (line : string) : Prop :=
  exists message, line = report_line (fst account) message.

(** the text of the notification, for the time shown and the two lists of
    report lines *)
Definition notification_text (current_time : string)
    (sign_messages status_messages : list string) : string :=
  "🕒 当前时间: " ++ current_time ++ nl ++ nl
  ++ ("🔔 GLaDOS 签到结果:" ++ nl ++ Str.join nl sign_messages) ++ nl
  ++ (nl ++ "⏳ GLaDOS 账号状态:" ++ nl ++ Str.join nl status_messages) ++ nl ++ nl
  ++ "✅ 签到任务完成".

(** * Properties *)

(** ** Strings *)

Lemma append_nil_r (s : string) : s ++ "" = s.
Proof. induction s as [|c s IH]; simpl; [reflexivity | now rewrite IH]. Qed.

Lemma append_assoc (a b c : string) : (a ++ b) ++ c = a ++ (b ++ c).
Proof. induction a as [|x a IH]; simpl; [reflexivity | now rewrite IH]. Qed.

Lemma length_append (a b : string) :
  String.length (a ++ b) = String.length a + String.length b.
Proof. induction a as [|x a IH]; simpl; [reflexivity | now rewrite IH]. Qed.

Lemma append_cancel_r (a b c : string) : a ++ c = b ++ c -> a = b.
Proof.
  revert b. induction a as [|x a IH]; intros [|y b] H; simpl in H.
  - reflexivity.
  - apply (f_equal String.length) in H. simpl in H. rewrite length_append in H. lia.
  - apply (f_equal String.length) in H. simpl in H. rewrite length_append in H. lia.
  - injection H as -> H. f_equal. now apply IH.
Qed.

Lemma prefix_cons (a c : ascii) (p s : string) :
  String.prefix (String a p) (String c s) = Ascii.eqb a c && String.prefix p s.
Proof.
  simpl. destruct (ascii_dec a c) as [->|n].
  - now rewrite Ascii.eqb_refl.
  - apply Ascii.eqb_neq in n. now rewrite n.
Qed.

Lemma prefix_nil (s : string) : String.prefix "" s = true.
Proof. now destruct s. Qed.

Lemma prefix_append (p s : string) : String.prefix p (p ++ s) = true.
Proof.
  induction p as [|a p IH]; simpl.
  - apply prefix_nil.
  - destruct (ascii_dec a a); [exact IH | congruence].
Qed.

Lemma prefix_inv (p s : string) :
  String.prefix p s = true -> exists r, s = p ++ r.
Proof.
  revert s. induction p as [|a p IH]; intros s H.
  - now exists s.
  - destruct s as [|c s]; [discriminate|].
    rewrite prefix_cons in H. apply andb_prop in H as [Hac Hp].
    apply Ascii.eqb_eq in Hac as ->.
    destruct (IH _ Hp) as [r ->]. now exists r.
Qed.

(** a prefix of [a] is a prefix of [a ++ b] *)
Lemma prefix_weaken (p a b : string) :
  String.prefix p a = true -> String.prefix p (a ++ b) = true.
Proof.
  intros H. destruct (prefix_inv _ _ H) as [r ->].
  rewrite append_assoc. apply prefix_append.
Qed.

(** what follows [a] does not matter to a [p] no longer than [a] *)
Lemma prefix_short (p a b : string) :
  String.length p <= String.length a ->
  String.prefix p (a ++ b) = String.prefix p a.
Proof.
  revert a. induction p as [|x p IH]; intros a Hl.
  - now rewrite !prefix_nil.
  - destruct a as [|y a]; simpl in Hl; [lia|].
    change (String y a ++ b) with (String y (a ++ b)).
    rewrite !prefix_cons. rewrite IH by lia. reflexivity.
Qed.

Lemma substring_skip (p r : string) (n : nat) :
  String.length r <= n ->
  String.substring (String.length p) n (p ++ r) = r.
Proof.
  induction p as [|a p IH]; intros Hn; simpl.
  - revert n Hn. induction r as [|c r IHr]; intros n Hn.
    + now destruct n.
    + destruct n as [|n]; simpl in *; [lia|]. f_equal. apply IHr. lia.
  - now apply IH.
Qed.

Lemma contains_cons (sub : string) (c : ascii) (s : string) :
  Str.contains sub (String c s) = String.prefix sub (String c s) || Str.contains sub s.
Proof. reflexivity. Qed.

Lemma contains_append_l (sub a b : string) :
  Str.contains sub a = true -> Str.contains sub (a ++ b) = true.
Proof.
  induction a as [|c a IH]; intros H.
  - simpl in H. rewrite orb_false_r in H.
    destruct sub; [|discriminate]. destruct b; reflexivity.
  - change (String c a ++ b) with (String c (a ++ b)).
    rewrite contains_cons in *. apply orb_true_iff in H as [H|H].
    + change (String c (a ++ b)) with (String c a ++ b).
      rewrite (prefix_weaken _ _ _ H). reflexivity.
    + rewrite (IH H). apply orb_true_r.
Qed.

Lemma contains_append_r (sub a b : string) :
  Str.contains sub b = true -> Str.contains sub (a ++ b) = true.
Proof.
  intros H. induction a as [|c a IH]; [exact H|].
  change (String c a ++ b) with (String c (a ++ b)).
  rewrite contains_cons, IH. apply orb_true_r.
Qed.

Lemma contains_prefix (sub s : string) :
  String.prefix sub s = true -> Str.contains sub s = true.
Proof. intros H. destruct s; simpl in *; rewrite H; reflexivity. Qed.

Lemma lower_append (a b : string) : Str.lower (a ++ b) = Str.lower a ++ Str.lower b.
Proof. induction a as [|c a IH]; simpl; [reflexivity | now rewrite IH]. Qed.

(** ** Splitting *)

Lemma split_go_cur (sep s : string) :
  forall k cur,
    Str.split_go sep k cur s =
    match Str.split_go sep k "" s with
    | x :: r => (cur ++ x) :: r
    | [] => []
    end.
Proof.
  induction s as [|c s IH]; intros k cur; cbn [Str.split_go].
  - now rewrite append_nil_r.
  - destruct k as [|k]; [|apply IH].
    destruct (String.prefix sep (String c s)).
    + cbn [append]. now rewrite append_nil_r.
    + cbn [append]. rewrite (IH 0 (cur ++ String c "")), (IH 0 (String c "")).
      destruct (Str.split_go sep 0 "" s); [reflexivity|].
      now rewrite append_assoc.
Qed.

Lemma split_go_skip (sep p rest cur : string) :
  Str.split_go sep (String.length p) cur (p ++ rest) = Str.split_go sep 0 cur rest.
Proof. induction p as [|a p IH]; simpl; [reflexivity | exact IH]. Qed.

(** [split] cuts at the first occurrence and goes on after it *)
Lemma split_unfold (a : ascii) (sep' s : string) :
  let sep := String a sep' in
  Str.split sep s =
  match after sep s with
  | None => [s]
  | Some r => Str.before sep s :: Str.split sep r
  end.
Proof.
  intros sep. unfold Str.split. induction s as [|c s IH]; [reflexivity|].
  cbn [Str.split_go after Str.before].
  destruct (String.prefix sep (String c s)) eqn:Hp.
  - destruct (prefix_inv _ _ Hp) as [r Hr].
    subst sep. simpl in Hr. injection Hr as -> ->.
    f_equal.
    replace (String.length (String a sep') - 1) with (String.length sep') by (simpl; lia).
    rewrite split_go_skip.
    change (String a (sep' ++ r)) with (String a sep' ++ r).
    rewrite substring_skip; [reflexivity|].
    rewrite length_append. lia.
  - rewrite split_go_cur, IH.
    destruct (after sep s); reflexivity.
Qed.

Lemma after_none (sep s : string) :
  Str.contains sep s = false -> after sep s = None.
Proof.
  induction s as [|c s IH]; intros H; [reflexivity|].
  rewrite contains_cons in H. apply orb_false_iff in H as [Hp Hc].
  cbn [after]. rewrite Hp. now apply IH.
Qed.

Lemma after_some (a : ascii) (sep' s : string) :
  Str.contains (String a sep') s = true -> exists r, after (String a sep') s = Some r.
Proof.
  induction s as [|c s IH]; intros H; [discriminate|].
  rewrite contains_cons in H. cbn [after].
  destruct (String.prefix (String a sep') (String c s)); [eauto|].
  now apply IH.
Qed.

Lemma before_none (sep s : string) :
  after sep s = None -> Str.before sep s = s.
Proof.
  induction s as [|c s IH]; intros H; [reflexivity|].
  cbn [after Str.before] in *.
  destruct (String.prefix sep (String c s)); [discriminate|].
  now rewrite IH.
Qed.

Lemma split_head (a : ascii) (sep' s : string) :
  exists tl, Str.split (String a sep') s = Str.before (String a sep') s :: tl.
Proof.
  rewrite split_unfold. destruct (after (String a sep') s) eqn:E.
  - eauto.
  - rewrite before_none by assumption. eauto.
Qed.

(** the extraction, read off the first occurrences of the two markers *)
Lemma extract_points_after (s : string) :
  extract_points (VStr s) =
  match after "Got " s with
  | None => VNone
  | Some r => VStr (Str.before " Points" (Str.before "Got " r))
  end.
Proof.
  unfold extract_points. rewrite split_unfold.
  destruct (after "Got " s) as [r|]; [|reflexivity].
  destruct (split_head "G" "ot " r) as [tl ->]. cbn [nth_error].
  destruct (split_head " " "Points" (Str.before "Got " r)) as [tl' ->].
  reflexivity.
Qed.

(** ** The two markers *)

(** cutting at ["Got "] does not change whether a text without [G] is a
    prefix *)
Lemma prefix_before_got (p : string) :
  no_G p = true ->
  forall s, String.prefix p (Str.before "Got " s) = String.prefix p s.
Proof.
  induction p as [|a p IH]; intros Hp s.
  - now rewrite !prefix_nil.
  - unfold no_G in Hp. simpl in Hp. apply andb_prop in Hp as [Ha Hp].
    destruct s as [|c s]; [reflexivity|].
    cbn [Str.before].
    destruct (String.prefix "Got " (String c s)) eqn:E.
    + rewrite prefix_cons in E. apply andb_prop in E as [E _].
      apply Ascii.eqb_eq in E as <-.
      rewrite prefix_cons.
      apply negb_true_iff in Ha. now rewrite Ha.
    + rewrite !prefix_cons. now rewrite (IH Hp).
Qed.

Lemma before_points_got (r : string) :
  Str.before " Points" (Str.before "Got " r) = until_marker r.
Proof.
  induction r as [|c r IH]; [reflexivity|].
  cbn [Str.before until_marker].
  destruct (String.prefix "Got " (String c r)) eqn:E; [reflexivity|].
  cbn [Str.before orb].
  assert (H : String.prefix " Points" (String c (Str.before "Got " r))
              = String.prefix " Points" (String c r)).
  { rewrite !prefix_cons. now rewrite (prefix_before_got "Points"). }
  rewrite H. destruct (String.prefix " Points" (String c r)); [reflexivity|].
  now rewrite IH.
Qed.

(** ["Got "] cannot begin inside a text free of it and end in a following
    ["Got "] *)
Lemma prefix_got_straddle (pre rest : string) :
  String.prefix "Got " pre = false ->
  String.prefix "Got " (pre ++ "Got " ++ rest) = false \/ pre = "".
Proof.
  intros H.
  destruct pre as [|c1 pre]; [now right|left].
  change (String c1 pre ++ "Got " ++ rest) with (String c1 (pre ++ "Got " ++ rest)).
  rewrite prefix_cons in *.
  destruct (Ascii.eqb "G" c1); [|reflexivity]. cbn [andb] in *.
  destruct pre as [|c2 pre]; [reflexivity|].
  change (String c2 pre ++ "Got " ++ rest) with (String c2 (pre ++ "Got " ++ rest)).
  rewrite prefix_cons in *.
  destruct (Ascii.eqb "o" c2); [|reflexivity]. cbn [andb] in *.
  destruct pre as [|c3 pre]; [reflexivity|].
  change (String c3 pre ++ "Got " ++ rest) with (String c3 (pre ++ "Got " ++ rest)).
  rewrite prefix_cons in *.
  destruct (Ascii.eqb "t" c3); [|reflexivity]. cbn [andb] in *.
  destruct pre as [|c4 pre]; [reflexivity|].
  change (String c4 pre ++ "Got " ++ rest) with (String c4 (pre ++ "Got " ++ rest)).
  rewrite prefix_cons in *.
  destruct (Ascii.eqb " " c4); [|reflexivity]. cbn [andb] in *.
  rewrite prefix_nil in H. discriminate.
Qed.

Lemma after_here (a : ascii) (sep' rest : string) :
  after (String a sep') (String a sep' ++ rest) = Some rest.
Proof.
  assert (P := prefix_append (String a sep') rest).
  assert (L : String.length rest <= String.length (String a sep' ++ rest))
    by (rewrite length_append; lia).
  assert (S := substring_skip (String a sep') rest _ L).
  change (String a sep' ++ rest) with (String a (sep' ++ rest)) in *.
  cbn [after]. now rewrite P, S.
Qed.

Lemma after_first_got (pre rest : string) :
  Str.contains "Got " pre = false ->
  after "Got " (pre ++ "Got " ++ rest) = Some rest.
Proof.
  induction pre as [|c pre IH]; intros H.
  - apply after_here.
  - rewrite contains_cons in H. apply orb_false_iff in H as [Hp Hc].
    destruct (prefix_got_straddle _ rest Hp) as [E|E]; [|discriminate].
    change (String c pre ++ "Got " ++ rest) with (String c (pre ++ "Got " ++ rest)) in *.
    cbn [after]. rewrite E. now apply IH.
Qed.

(** the first occurrence of a non-empty text splits a text that contains it *)
Lemma contains_first (a : ascii) (sep' s : string) :
  Str.contains (String a sep') s = true ->
  exists pre rest,
    s = pre ++ String a sep' ++ rest /\ Str.contains (String a sep') pre = false.
Proof.
  induction s as [|c s IH]; intros H; [discriminate|].
  rewrite contains_cons in H.
  destruct (String.prefix (String a sep') (String c s)) eqn:Hp.
  - destruct (prefix_inv _ _ Hp) as [r Hr]. exists "", r. split; [exact Hr | reflexivity].
  - cbn [orb] in H. destruct (IH H) as (pre & rest & -> & Hpre).
    exists (String c pre), rest. split; [reflexivity|].
    rewrite contains_cons, Hpre, orb_false_r.
    destruct (String.prefix (String a sep') (String c pre)) eqn:E; [|reflexivity].
    change (String c (pre ++ String a sep' ++ rest))
      with (String c pre ++ String a sep' ++ rest) in Hp.
    rewrite (prefix_weaken _ _ _ E) in Hp. discriminate.
Qed.

(** ** Outcome Translator *)

Lemma msg_lower_str (s : string) : msg_lower_of (VStr s) = Ok (Str.lower s).
Proof. now destruct s. Qed.

(** the lowered retry literal holds none of the three words *)
Lemma got_not_retry (s : string) :
  Str.contains "got" (Str.lower s) = true -> (s =? "Please Try Tomorrow") = false.
Proof.
  intros H. destruct (String.eqb_spec s "Please Try Tomorrow") as [->|]; [|reflexivity].
  vm_compute in H. discriminate.
Qed.

Lemma lower_contains_got (s : string) :
  Str.contains "Got " s = true -> Str.contains "got" (Str.lower s) = true.
Proof.
  intros H. destruct (contains_first _ _ _ H) as (pre & rest & -> & _).
  rewrite !lower_append. apply contains_append_r, contains_append_l. reflexivity.
Qed.

(** the success branch with no points supplied *)
Lemma translate_got_none (rt : runtime) (s : string) :
  Str.contains "got" (Str.lower s) = true ->
  translate_message rt (VStr s) VNone =
  Ok match after "Got " s with
     | Some r => success_with (until_marker r)
     | None => success_verbatim s
     end.
Proof.
  intros H. unfold translate_message. cbn [value_eq_str].
  rewrite (got_not_retry _ H), msg_lower_str, H. cbn [is_none].
  rewrite extract_points_after.
  destruct (after "Got " s) as [r|]; cbn [is_none negb py_str].
  - now rewrite before_points_got.
  - reflexivity.
Qed.

Lemma until_marker_pattern (n post : string) :
  Str.contains "Got " (n ++ " Points") = false ->
  Str.contains " Points" (n ++ " Point") = false ->
  until_marker (n ++ " Points" ++ post) = n.
Proof.
  induction n as [|c n IH]; intros Hg Hp.
  - assert (P := prefix_append " Points" post).
    cbn [append] in *. cbn [until_marker]. now rewrite P, orb_true_r.
  - change (String c n ++ " Points") with (String c (n ++ " Points")) in Hg.
    change (String c n ++ " Point") with (String c (n ++ " Point")) in Hp.
    rewrite contains_cons in Hg, Hp.
    apply orb_false_iff in Hg as [Hg1 Hg2]. apply orb_false_iff in Hp as [Hp1 Hp2].
    change (String c n ++ " Points" ++ post) with (String c (n ++ " Points" ++ post)).
    cbn [until_marker].
    assert (E1 : String.prefix "Got " (String c (n ++ " Points" ++ post)) = false).
    { etransitivity; [|exact Hg1].
      change (String c (n ++ " Points" ++ post)) with (String c n ++ " Points" ++ post).
      rewrite <- append_assoc. apply prefix_short.
      simpl. rewrite length_append. simpl. lia. }
    assert (E2 : String.prefix " Points" (String c (n ++ " Points" ++ post)) = false).
    { etransitivity; [|exact Hp1].
      change (String c (n ++ " Points" ++ post)) with (String c n ++ " Point" ++ "s" ++ post).
      rewrite <- append_assoc. apply prefix_short.
      simpl. rewrite length_append. simpl. lia. }
    rewrite E1, E2. cbn [orb]. now rewrite IH.
Qed.

Lemma translate_retry_only (rt : runtime) (raw points : value) :
  translate_message rt raw points = Ok retry_tomorrow ->
  raw = VStr "Please Try Tomorrow".
Proof.
  unfold translate_message, retry_tomorrow.
  destruct (value_eq_str raw "Please Try Tomorrow") eqn:E.
  - intros _. destruct raw; try discriminate. apply String.eqb_eq in E. now subst.
  - destruct (msg_lower_of raw) as [l|]; [|discriminate].
    destruct (Str.contains "got" l).
    + destruct (negb _); destruct (py_str rt _); cbn [append]; intros H; discriminate.
    + destruct (_ || _); [discriminate|].
      destruct (truthy raw); [destruct (py_str rt _)|]; cbn [append]; intros H;
        discriminate.
Qed.

Lemma translate_placeholder_only (rt : runtime) (s : string) (points : value) :
  translate_message rt (VStr s) points = Ok empty_placeholder ->
  s = "" \/ s = "(empty message)".
Proof.
  unfold translate_message, empty_placeholder. cbn [value_eq_str].
  destruct (s =? "Please Try Tomorrow"); [discriminate|].
  rewrite msg_lower_str.
  destruct (Str.contains "got" (Str.lower s)).
  - destruct (negb _); destruct (py_str rt _); cbn [append]; intros H; discriminate.
  - destruct (_ || _); [discriminate|].
    cbn [truthy py_str]. destruct (String.eqb_spec s "") as [->|Hs]; cbn [negb].
    + now left.
    + intros H. right. injection H as H.
      change "未知的签到结果: (empty message) ❓"
        with ("未知的签到结果: " ++ "(empty message)" ++ " ❓") in H.
      cbn [append] in H.
      repeat (injection H as H).
      change (String " " (String "226" (String "157" (String "147" ""))))
        with (" ❓") in H.
      change (String "(" ?x) with ("(empty message)" ++ " ❓") in H.
      now apply append_cancel_r in H.
Qed.

(** C2, as the code has it: the translation is the retry-tomorrow outcome
    exactly when the message equals the literal ["Please Try Tomorrow"],
    whatever the points; a message that only contains the literal is left to
    the later rules. *)
Theorem retry_tomorrow_exact (rt : runtime) (raw points : value) :
  translate_message rt raw points = Ok retry_tomorrow
  <-> raw = VStr "Please Try Tomorrow".
Proof.
  split.
  - apply translate_retry_only.
  - intros ->. reflexivity.
Qed.

(** C2 fails as stated: a message that contains the literal among other text
    is reported as an unknown server message. *)
Lemma retry_tomorrow_surrounded :
  Str.contains "Please Try Tomorrow" "Oops, Please Try Tomorrow!" = true
  /\ translate_message sample_runtime (VStr "Oops, Please Try Tomorrow!") VNone
     = Ok (unknown_message "Oops, Please Try Tomorrow!")
  /\ unknown_message "Oops, Please Try Tomorrow!" <> retry_tomorrow.
Proof. repeat split. discriminate. Qed.

(** C3, as the code has it: the empty string and an absent message both
    translate to the placeholder line, and the only other message text with
    that translation is ["(empty message)"] itself. *)
Theorem empty_message_placeholder (rt : runtime) (points : value) :
  translate_message rt (VStr "") points = Ok empty_placeholder
  /\ translate_message rt VNone points = Ok empty_placeholder
  /\ translate_message rt (VStr "(empty message)") points = Ok empty_placeholder
  /\ (forall s, translate_message rt (VStr s) points = Ok empty_placeholder ->
                s = "" \/ s = "(empty message)").
Proof.
  split; [reflexivity|]. split; [reflexivity|]. split; [reflexivity|].
  intros s. apply translate_placeholder_only.
Qed.

(** C3 fails as stated: the non-empty message ["(empty message)"] has the
    translation of the empty one. *)
Lemma placeholder_collision :
  translate_message sample_runtime (VStr "(empty message)") VNone
  = translate_message sample_runtime (VStr "") VNone
  /\ "(empty message)" <> "".
Proof. split; [reflexivity | discriminate]. Qed.

(** the text of an int within the limit on digits *)
Lemma int_text_ok (rt : runtime) (z : Z) :
  (int_max_str_digits rt <= 0 \/ Z.abs z < 10 ^ Z.max (int_max_str_digits rt) 640)%Z ->
  int_text rt z = Ok (Str.of_Z z).
Proof.
  intros H. unfold int_text.
  destruct (Z.ltb_spec 0 (int_max_str_digits rt)); [|reflexivity].
  destruct (Z.leb_spec (10 ^ Z.max (int_max_str_digits rt) 640) (Z.abs z));
    [lia | reflexivity].
Qed.

Lemma int_text_raises (rt : runtime) (z : Z) :
  (0 < int_max_str_digits rt)%Z ->
  (10 ^ Z.max (int_max_str_digits rt) 640 <= Z.abs z)%Z ->
  int_text rt z = Raise (ValueError (VInt z)).
Proof.
  intros H1 H2. unfold int_text.
  destruct (Z.ltb_spec 0 (int_max_str_digits rt)); [|lia].
  destruct (Z.leb_spec (10 ^ Z.max (int_max_str_digits rt) 640) (Z.abs z));
    [reflexivity | lia].
Qed.

(** the success branch with points supplied *)
Lemma translate_got_points (rt : runtime) (s : string) (points : value) :
  Str.contains "got" (Str.lower s) = true ->
  is_none points = false ->
  translate_message rt (VStr s) points =
  match py_str rt points with
  | Ok text => Ok ("签到成功，获得" ++ text ++ "积分 🎉")
  | Raise e => Raise e
  end.
Proof.
  intros H Hp. unfold translate_message. cbn [value_eq_str].
  rewrite (got_not_retry _ H), msg_lower_str, H.
  destruct points; try discriminate Hp; reflexivity.
Qed.

(** C4, as the code has it: for a message whose lowered text contains
    [got], a supplied points value is shown in the success line, whatever
    number the message text holds: a string as it is, a boolean as [True] or
    [False], an int in decimal; but an int with more digits than the limit of
    the interpreter (above 640 digits) makes the translation raise
    [ValueError], and for a float, list or dict the line carries the text
    that the interpreter gives the value. *)
Theorem got_with_points (rt : runtime) (s : string) :
  Str.contains "got" (Str.lower s) = true ->
  (forall p, translate_message rt (VStr s) (VStr p) = Ok (success_with p))
  /\ translate_message rt (VStr s) (VBool true) = Ok (success_with "True")
  /\ translate_message rt (VStr s) (VBool false) = Ok (success_with "False")
  /\ (forall z,
        (int_max_str_digits rt <= 0
         \/ Z.abs z < 10 ^ Z.max (int_max_str_digits rt) 640)%Z ->
        translate_message rt (VStr s) (VInt z) = Ok (success_with (Str.of_Z z)))
  /\ (forall z,
        (0 < int_max_str_digits rt)%Z ->
        (10 ^ Z.max (int_max_str_digits rt) 640 <= Z.abs z)%Z ->
        translate_message rt (VStr s) (VInt z) = Raise (ValueError (VInt z)))
  /\ (forall points,
        match points with
        | VFloat _ | VList _ | VDict _ => True
        | _ => False
        end ->
        translate_message rt (VStr s) points =
        match repr_other rt points with
        | Ok text => Ok (success_with text)
        | Raise e => Raise e
        end).
Proof.
  intros H. repeat split.
  - intros p. now rewrite translate_got_points.
  - now rewrite translate_got_points.
  - now rewrite translate_got_points.
  - intros z Hz. rewrite translate_got_points by easy.
    cbn [py_str]. now rewrite int_text_ok.
  - intros z H1 H2. rewrite translate_got_points by easy.
    cbn [py_str]. now rewrite int_text_raises.
  - intros points Hp. rewrite translate_got_points; destruct points; easy.
Qed.

Lemma got_with_points_witness :
  Str.contains "got" (Str.lower "Checkin! Got 5 Points") = true
  /\ translate_message sample_runtime (VStr "Checkin! Got 5 Points") (VStr "7")
     = Ok (success_with "7")
  /\ translate_message sample_runtime (VStr "Checkin! Got 5 Points") (VInt 7)
     = Ok "签到成功，获得7积分 🎉"
  /\ translate_message sample_runtime (VStr "Checkin! Got 5 Points") (VInt (-120))
     = Ok "签到成功，获得-120积分 🎉".
Proof.
  split; [reflexivity|].
  destruct (got_with_points sample_runtime "Checkin! Got 5 Points")
    as (text & _ & _ & number & _); [reflexivity|].
  split; [apply text|].
  split; [apply (number 7%Z) | apply (number (-120)%Z)]; right; vm_compute; reflexivity.
Defined.

(** C4 fails as stated: with the limit of 4300 digits that the interpreter
    has by default, the supplied integer [10^4300] has 4301 digits, and the
    translation raises instead of yielding a success. *)
Lemma points_beyond_digit_limit :
  Str.contains "got" (Str.lower "Got 5 Points") = true
  /\ is_none (VInt (10 ^ 4300)) = false
  /\ translate_message sample_runtime (VStr "Got 5 Points") (VInt (10 ^ 4300))
     = Raise (ValueError (VInt (10 ^ 4300))).
Proof.
  split; [reflexivity|]. split; [reflexivity|]. vm_compute. reflexivity.
Qed.

(** C5, as the code has it: with no points supplied, a message
    [pre ++ "Got " ++ n ++ " Points" ++ post] yields exactly [n] when this
    ["Got "] is the first of the message and [n ++ " Points"] holds no
    further ["Got "] and no earlier [" Points"] (so for every number [n]);
    and when the extraction fails, the success line shows the message as it
    is and no points. *)
Theorem extraction_of_pattern (rt : runtime) :
  (forall pre n post,
      Str.contains "Got " pre = false ->
      Str.contains "Got " (n ++ " Points") = false ->
      Str.contains " Points" (n ++ " Point") = false ->
      translate_message rt (VStr (pre ++ "Got " ++ n ++ " Points" ++ post)) VNone
      = Ok (success_with n))
  /\ (forall s,
         Str.contains "got" (Str.lower s) = true ->
         extract_points (VStr s) = VNone ->
         translate_message rt (VStr s) VNone = Ok (success_verbatim s)).
Proof.
  split.
  - intros pre n post Hpre Hg Hp.
    rewrite translate_got_none.
    + now rewrite (after_first_got _ _ Hpre), until_marker_pattern.
    + apply lower_contains_got, contains_append_r, contains_prefix, prefix_append.
  - intros s H E. rewrite (translate_got_none _ _ H).
    rewrite extract_points_after in E.
    destruct (after "Got " s); [discriminate | reflexivity].
Qed.

Lemma extraction_of_pattern_witness :
  (Str.contains "Got " "Checkin! " = false
   /\ Str.contains "Got " ("5" ++ " Points") = false
   /\ Str.contains " Points" ("5" ++ " Point") = false
   /\ translate_message sample_runtime
        (VStr ("Checkin! " ++ "Got " ++ "5" ++ " Points" ++ "")) VNone
      = Ok (success_with "5"))
  /\ (Str.contains "got" (Str.lower "you got 5 points") = true
      /\ extract_points (VStr "you got 5 points") = VNone
      /\ translate_message sample_runtime (VStr "you got 5 points") VNone
         = Ok (success_verbatim "you got 5 points")).
Proof.
  split.
  - repeat (split; [reflexivity|]).
    apply (proj1 (extraction_of_pattern sample_runtime) "Checkin! " "5" ""); reflexivity.
  - repeat (split; [reflexivity|]).
    apply (proj2 (extraction_of_pattern sample_runtime) "you got 5 points"); reflexivity.
Defined.

(** C5 fails as stated: this message contains ["Got 5 Points"], and the
    points shown are the text after its first ["Got "]. *)
Lemma extraction_takes_first_got :
  Str.contains "got" (Str.lower "Got lucky! Got 5 Points") = true
  /\ "Got lucky! Got 5 Points" = "Got lucky! " ++ "Got " ++ "5" ++ " Points" ++ ""
  /\ translate_message sample_runtime (VStr "Got lucky! Got 5 Points") VNone
     = Ok (success_with "lucky! ")
  /\ success_with "lucky! " <> success_with "5".
Proof. repeat split. discriminate. Qed.

(** C10, as the code has it: with no points supplied, a message that
    contains ["Got "] yields the text after its first ["Got "] up to the
    first place where a further ["Got "] or [" Points"] begins, or up to the
    end of the message, numeric or not; the extraction fails only when the
    message has no ["Got "], and every message that contains it has a first
    one. *)
Theorem extraction_reach (rt : runtime) :
  (forall pre rest,
      Str.contains "Got " pre = false ->
      translate_message rt (VStr (pre ++ "Got " ++ rest)) VNone
      = Ok (success_with (until_marker rest)))
  /\ (forall s,
         Str.contains "got" (Str.lower s) = true ->
         Str.contains "Got " s = false ->
         extract_points (VStr s) = VNone
         /\ translate_message rt (VStr s) VNone = Ok (success_verbatim s))
  /\ (forall s,
         Str.contains "Got " s = true ->
         exists pre rest,
           s = pre ++ "Got " ++ rest /\ Str.contains "Got " pre = false
           /\ extract_points (VStr s) = VStr (until_marker rest)).
Proof.
  split; [|split].
  - intros pre rest Hpre. rewrite translate_got_none.
    + now rewrite (after_first_got _ _ Hpre).
    + apply lower_contains_got, contains_append_r, contains_prefix, prefix_append.
  - intros s H Hn. rewrite (translate_got_none _ _ H), extract_points_after.
    now rewrite (after_none _ _ Hn).
  - intros s H. destruct (contains_first _ _ _ H) as (pre & rest & -> & Hpre).
    exists pre, rest. repeat split; [exact Hpre|].
    now rewrite extract_points_after, (after_first_got _ _ Hpre), before_points_got.
Qed.

Lemma extraction_reach_witness :
  (Str.contains "Got " "You " = false
   /\ translate_message sample_runtime (VStr ("You " ++ "Got " ++ "a bonus")) VNone
      = Ok (success_with "a bonus"))
  /\ (Str.contains "got" (Str.lower "GOT IT") = true
      /\ Str.contains "Got " "GOT IT" = false
      /\ translate_message sample_runtime (VStr "GOT IT") VNone
         = Ok (success_verbatim "GOT IT")).
Proof.
  split.
  - split; [reflexivity|].
    apply (proj1 (extraction_reach sample_runtime) "You " "a bonus"); reflexivity.
  - repeat (split; [reflexivity|]).
    apply (proj1 (proj2 (extraction_reach sample_runtime)) "GOT IT"); reflexivity.
Defined.

(** C10 fails as stated: the text between the first ["Got "] and the first
    [" Points"] after it is ["a Got b"], and the points shown are ["a "]. *)
Lemma extraction_stops_at_next_got :
  Str.contains "Got " "" = false
  /\ Str.before " Points" "a Got b Points" = "a Got b"
  /\ translate_message sample_runtime (VStr ("" ++ "Got " ++ "a Got b Points")) VNone
     = Ok (success_with "a ")
  /\ success_with "a " <> success_with "a Got b".
Proof. repeat split. discriminate. Qed.

(** ** Account Client *)

Ltac run_m :=
  cbv beta iota zeta
    delta [bind ret lift emit print sleep send beijing_minute
           datetime_utcnow random_randint].

Ltac run_m_in H :=
  cbv beta iota zeta
    delta [bind ret lift emit print sleep send beijing_minute
           datetime_utcnow random_randint] in H.

Lemma debug_log_run (cfg : config) (msg : string) (h : history) :
  debug_log cfg msg h = (Ok tt, (h ++ debug_events cfg msg)%list).
Proof.
  unfold debug_log, debug_events. destruct (DEBUG cfg); run_m.
  - reflexivity.
  - now rewrite app_nil_r.
Qed.

(** the decoder hands back the payload, or [None] after an optional debug
    line; it never raises *)
Lemma safe_json_run (rt : runtime) (cfg : config) (resp : response) (ctx : string)
    (h : history) :
  exists evs,
    safe_json rt cfg resp ctx h
    = (Ok match resp_json resp with Ok v => v | Raise _ => VNone end, (h ++ evs)%list)
    /\ outbound evs = [].
Proof.
  unfold safe_json. destruct (resp_json resp) as [v|e]; run_m.
  - exists []. now rewrite app_nil_r.
  - rewrite debug_log_run. eexists. split; [reflexivity|].
    unfold debug_events. now destruct (DEBUG cfg).
Qed.

Ltac decode_step :=
  match goal with
  | |- context [safe_json ?rt ?cfg ?resp ?ctx ?h] =>
      let evs := fresh "evs" in
      let Hq := fresh "Hquiet" in
      destruct (safe_json_run rt cfg resp ctx h) as (evs & -> & Hq)
  end.

Lemma no_payload_falsy (r : result value) :
  no_payload r = true ->
  truthy match r with Ok v => v | Raise _ => VNone end = false.
Proof. destruct r as [v|e]; simpl; [apply negb_true_iff | reflexivity]. Qed.

Lemma sign_no_payload (rt : runtime) (w : world) (cfg : config)
    (email cookie : string) (proxy : option (list (string * string)))
    (h : history) (resp : response) :
  http w (h ++ debug_events cfg (checkin_debug_line cfg cookie))%list
    (checkin_request cfg cookie proxy) = Response resp ->
  no_payload (resp_json resp) = true ->
  fst (sign rt w cfg email cookie proxy h)
  = Ok (checkin_decode_failure email (status_code resp)).
Proof.
  intros Hw Hp. unfold sign. run_m.
  rewrite debug_log_run, Hw. cbv beta iota. rewrite debug_log_run.
  decode_step.
  rewrite (no_payload_falsy _ Hp). reflexivity.
Qed.

Lemma status_no_payload (rt : runtime) (w : world) (cfg : config)
    (email cookie : string) (proxy : option (list (string * string)))
    (h : history) (resp : response) :
  http w (h ++ debug_events cfg (status_debug_line cfg))%list
    (status_request cfg cookie proxy) = Response resp ->
  no_payload (resp_json resp) = true ->
  fst (check_account_status rt w cfg email cookie proxy h)
  = Ok (status_decode_failure email (status_code resp)).
Proof.
  intros Hw Hp. unfold check_account_status. run_m.
  rewrite debug_log_run, Hw. cbv beta iota.
  decode_step.
  rewrite (no_payload_falsy _ Hp). reflexivity.
Qed.

(** ** What a run sends *)

Lemma outbound_app (a b : history) :
  outbound (a ++ b)%list = (outbound a ++ outbound b)%list.
Proof. apply filter_app. Qed.

Lemma outbound_debug (cfg : config) (msg : string) : outbound (debug_events cfg msg) = [].
Proof. unfold debug_events. now destruct (DEBUG cfg). Qed.

Ltac outbound_solve :=
  rewrite ?outbound_app, ?outbound_debug;
  repeat match goal with H : outbound _ = [] |- _ => rewrite H end;
  reflexivity.

Ltac history_eq :=
  run_m; cbn [truthy negb]; run_m; rewrite <- ?app_assoc; reflexivity.

Ltac history_shape := eexists; split; [history_eq | outbound_solve].

(** a status request is sent once; a line comes back whenever the call
    does *)
Lemma status_run (rt : runtime) (w : world) (cfg : config)
    (email cookie : string) (proxy : option (list (string * string))) (h : history) :
  exists r evs,
    check_account_status rt w cfg email cookie proxy h = (r, (h ++ evs)%list)
    /\ outbound evs = [ERequest (status_request cfg cookie proxy)]
    /\ match http w (h ++ debug_events cfg (status_debug_line cfg))%list
               (status_request cfg cookie proxy) with
       | OtherException e => r = Raise e
       | _ => exists line, r = Ok line
       end.
Proof.
  unfold check_account_status. run_m. rewrite debug_log_run.
  destruct (http w _ _) as [resp|e|x].
  - decode_step. destruct (truthy _); cbn [negb].
    + destruct (left_days_line _ _ _); eexists _, _;
        (split; [history_eq | split; [outbound_solve | eauto]]).
    + eexists _, _; (split; [history_eq | split; [outbound_solve | eauto]]).
  - eexists _, _; (split; [history_eq | split; [outbound_solve | eauto]]).
  - eexists _, _; (split; [history_eq | split; [outbound_solve | eauto]]).
Qed.

(** the extraction gives a text or nothing *)
Lemma extract_points_text (m : value) :
  extract_points m = VNone \/ exists p, extract_points m = VStr p.
Proof.
  unfold extract_points. destruct m; auto.
  destruct (nth_error _ 1) as [seg|]; auto.
  destruct (nth_error _ 0); eauto.
Qed.

(** the translator raises only on a message that is neither text nor false,
    or on points that have no text *)
Lemma translate_total (rt : runtime) (m points : value) :
  match m with VStr _ => true | _ => negb (truthy m) end = true ->
  (is_none points = true \/ exists text, py_str rt points = Ok text) ->
  exists t, translate_message rt m points = Ok t.
Proof.
  intros H Hp. unfold translate_message.
  destruct (value_eq_str m _); [eauto|].
  assert (E : (exists s, m = VStr s) \/ (truthy m = false /\ msg_lower_of m = Ok "")).
  { destruct m; eauto; right; apply negb_true_iff in H;
      (split; [exact H|]); unfold msg_lower_of; now rewrite H. }
  destruct E as [[s ->]|[F ->]].
  - rewrite msg_lower_str. cbn [py_str].
    destruct (Str.contains "got" (Str.lower s)).
    + cbv zeta. destruct (is_none points) eqn:N.
      * destruct (extract_points_text (VStr s)) as [->|[p ->]]; cbn; eauto.
      * destruct Hp as [Hp|[text Hp]]; [congruence|]. rewrite N, Hp. cbn [negb]. eauto.
    + destruct (_ || _); [eauto|]. destruct (truthy _); eauto.
  - change (Str.contains "got" "") with false. cbv iota.
    destruct (_ || _); [eauto|]. rewrite F. eauto.
Qed.

(** a check-in request is sent once, whatever comes of it *)
Lemma sign_run (rt : runtime) (w : world) (cfg : config)
    (email cookie : string) (proxy : option (list (string * string))) (h : history) :
  exists r evs,
    sign rt w cfg email cookie proxy h = (r, (h ++ evs)%list)
    /\ outbound evs = [ERequest (checkin_request cfg cookie proxy)].
Proof.
  unfold sign. run_m. rewrite debug_log_run.
  destruct (http w _ _) as [resp|e|x].
  - rewrite debug_log_run. decode_step.
    destruct (truthy _); cbn [negb].
    + destruct (value_get _ "message" _) as [m|x];
        [destruct (value_get _ "points" _) as [p|x];
         [destruct (translate_message rt m p) as [line|x]|]|];
        eexists _, _; (split; [history_eq | outbound_solve]).
    + eexists _, _; (split; [history_eq | outbound_solve]).
  - eexists _, _; (split; [history_eq | outbound_solve]).
  - eexists _, _; (split; [history_eq | outbound_solve]).
Qed.

(** ** Session Orchestrator *)

Lemma send_notification_run (rt : runtime) (w : world) (cfg : config)
    (sign_messages status_messages : list string) (bot_token chat_id : string)
    (h : history) :
  exists r rq evs,
    send_notification rt w cfg sign_messages status_messages bot_token chat_id h
    = (r, (h ++ evs)%list)
    /\ outbound evs = [ERequest rq]
    /\ rq_method rq = "POST"
    /\ rq_url rq = "https://api.telegram.org/bot" ++ bot_token ++ "/sendMessage".
Proof.
  unfold send_notification. run_m.
  destruct (http w _ _) as [resp|e|x].
  - destruct (_ && _); eexists _, _, _; (split; [history_eq |]);
      (split; [outbound_solve |]); split; reflexivity.
  - eexists _, _, _; (split; [history_eq |]);
      (split; [outbound_solve |]); split; reflexivity.
  - eexists _, _, _; (split; [history_eq |]);
      (split; [outbound_solve |]); split; reflexivity.
Qed.

(** a loop that ends normally has sent, per account, the two requests and a
    sleep *)
Lemma run_accounts_run (rt : runtime) (w : world) (cfg : config)
    (proxy : option (list (string * string))) (accounts : list (string * string)) :
  forall sign_messages status_messages h messages h',
    run_accounts rt w cfg proxy accounts sign_messages status_messages h
    = (Ok messages, h') ->
    exists evs, h' = (h ++ evs)%list /\ paced cfg proxy accounts (outbound evs).
Proof.
  induction accounts as [|[email cookie] rest IH]; intros sm stm h messages h' E.
  - cbn [run_accounts] in E. run_m_in E. injection E as _ <-.
    exists []. split; [now rewrite app_nil_r | reflexivity].
  - cbn [run_accounts] in E. run_m_in E.
    destruct (sign_run rt w cfg email cookie proxy h) as (r & evs1 & E1 & O1).
    rewrite E1 in E. destruct r as [line|x]; [|discriminate E].
    destruct (status_run rt w cfg email cookie proxy (h ++ evs1)%list)
      as (r2 & evs2 & E2 & O2 & _).
    rewrite E2 in E. destruct r2 as [line2|x]; [|discriminate E].
    apply IH in E as (evs3 & -> & P3).
    eexists. split; [rewrite <- !app_assoc; reflexivity|].
    rewrite !outbound_app, O1, O2. cbn. eauto.
Qed.

Lemma paced_sleeps (cfg : config) (proxy : option (list (string * string)))
    (accounts : list (string * string)) :
  forall sent, paced cfg proxy accounts sent -> sleeps sent = List.length accounts.
Proof.
  induction accounts as [|[email cookie] rest IH]; intros sent P.
  - cbn in P. now subst.
  - destruct P as (seconds & sent' & -> & P). cbn. f_equal. now apply IH.
Qed.

Lemma sleeps_outbound (h : history) : sleeps (outbound h) = sleeps h.
Proof.
  unfold sleeps, outbound. induction h as [|[line|rq|s] h IH]; cbn; auto.
Qed.

Lemma load_accounts_none (getenv : environ) (fuel : nat) :
  env_truthy (getenv "GLADOS_EMAIL_1") && env_truthy (getenv "GLADOS_COOKIE_1") = false ->
  load_accounts (S fuel) getenv 1 [] = Some [].
Proof.
  cbn [load_accounts]. change ("GLADOS_EMAIL_" ++ Str.of_Z 1) with "GLADOS_EMAIL_1".
  change ("GLADOS_COOKIE_" ++ Str.of_Z 1) with "GLADOS_COOKIE_1".
  destruct (getenv "GLADOS_EMAIL_1") as [email|]; [|reflexivity].
  destruct (getenv "GLADOS_COOKIE_1") as [cookie|]; [|reflexivity].
  cbn [env_truthy]. intros H.
  rewrite <- negb_orb in H. apply negb_false_iff in H. now rewrite H.
Qed.

Lemma warning_run (getenv : environ) (h : history) :
  exists evs,
    (if negb (env_truthy (getenv "TG_BOT_TOKEN")) || negb (env_truthy (getenv "TG_CHAT_ID"))
     then print "未设置 TG_BOT_TOKEN / TG_CHAT_ID，将只在控制台输出，不发送 Telegram 通知"
     else ret tt) h = (Ok tt, (h ++ evs)%list)
    /\ outbound evs = [].
Proof.
  destruct (_ || _).
  - eexists. split; reflexivity.
  - exists []. split; [run_m; now rewrite app_nil_r | reflexivity].
Qed.

(** the end of a run: one request to the notification sink when both
    settings are present, nothing otherwise *)
Lemma notification_run (rt : runtime) (w : world) (cfg : config) (getenv : environ)
    (messages : list string * list string) (h : history) :
  exists r evs,
    match getenv "TG_BOT_TOKEN", getenv "TG_CHAT_ID" with
    | Some token, Some chat =>
        if negb (token =? "") && negb (chat =? "")
        then send_notification rt w cfg (fst messages) (snd messages) token chat
        else ret tt
    | _, _ => ret tt
    end h = (r, (h ++ evs)%list)
    /\ ((notified getenv = false /\ outbound evs = [] /\ r = Ok tt)
        \/ (notified getenv = true
            /\ exists rq, outbound evs = [ERequest rq] /\ rq_method rq = "POST")).
Proof.
  unfold notified.
  destruct (getenv "TG_BOT_TOKEN") as [token|]; cbn [env_truthy andb].
  2: { exists (Ok tt), []. split; [run_m; now rewrite app_nil_r | now left]. }
  destruct (getenv "TG_CHAT_ID") as [chat|]; cbn [env_truthy andb].
  2: { exists (Ok tt), [].
       split; [run_m; now rewrite app_nil_r
              | left; split; [apply andb_false_r | split; reflexivity]]. }
  destruct (negb (token =? "") && negb (chat =? "")).
  - destruct (send_notification_run rt w cfg (fst messages) (snd messages) token chat h)
      as (r & rq & evs & -> & O & Hm & _).
    exists r, evs. split; [reflexivity|]. right. eauto.
  - exists (Ok tt), []. split; [run_m; now rewrite app_nil_r | now left].
Qed.

(** C8: a check-in response whose body does not decode gives the
    decode-failure line with the status code of the response, as a normal
    result; the decoder itself never raises, it hands back the payload or
    [None]. *)
Theorem undecodable_checkin (rt : runtime) (w : world) (cfg : config)
    (email cookie : string) (proxy : option (list (string * string)))
    (h : history) (resp : response) (e : exn) :
  http w (h ++ debug_events cfg (checkin_debug_line cfg cookie))%list
    (checkin_request cfg cookie proxy) = Response resp ->
  resp_json resp = Raise e ->
  fst (sign rt w cfg email cookie proxy h)
  = Ok ("<b>" ++ email ++ "</b>: 解析响应失败: HTTP " ++ Str.of_Z (status_code resp))
  /\ (forall ctx h', fst (safe_json rt cfg resp ctx h') = Ok VNone)
  /\ (forall r ctx h',
         exists v, fst (safe_json rt cfg r ctx h') = Ok v
                   /\ (resp_json r = Ok v
                       \/ (v = VNone /\ exists e', resp_json r = Raise e'))).
Proof.
  intros Hw He. split; [|split].
  - apply sign_no_payload; [exact Hw | now rewrite He].
  - intros ctx h'. destruct (safe_json_run rt cfg resp ctx h') as (evs & -> & _).
    now rewrite He.
  - intros r ctx h'. destruct (safe_json_run rt cfg r ctx h') as (evs & -> & _).
    destruct (resp_json r) as [v|e'].
    + exists v. split; [reflexivity | now left].
    + exists VNone. split; [reflexivity | right; eauto].
Qed.

Lemma undecodable_checkin_witness :
  let resp := sample_response 502 (Raise (JSONDecodeError "Expecting value")) in
  let w := constant_world resp in
  http w ([] ++ debug_events sample_config (checkin_debug_line sample_config "cookie-a"))%list
    (checkin_request sample_config "cookie-a" None) = Response resp
  /\ resp_json resp = Raise (JSONDecodeError "Expecting value")
  /\ fst (sign sample_runtime w sample_config "a@x.io" "cookie-a" None [])
     = Ok "<b>a@x.io</b>: 解析响应失败: HTTP 502".
Proof.
  intros resp w. split; [reflexivity|]. split; [reflexivity|].
  apply (undecodable_checkin sample_runtime w sample_config "a@x.io" "cookie-a" None []
           resp (JSONDecodeError "Expecting value")); reflexivity.
Defined.

(** C9: a response whose body decodes to an object that tests false (the
    empty object, null, false, 0, the empty string) gets from the check-in
    and from the status operation the decode-failure line with the status
    code, the line an undecodable body gets. *)
Theorem falsy_payload_as_decode_failure (rt : runtime) (w : world) (cfg : config)
    (email cookie : string) (proxy : option (list (string * string)))
    (h : history) (resp : response) :
  no_payload (resp_json resp) = true ->
  Forall (fun v => no_payload (Ok v) = true)
    [VDict []; VNone; VBool false; VInt 0; VStr ""]
  /\ (forall e, no_payload (Raise e) = true)
  /\ (http w (h ++ debug_events cfg (checkin_debug_line cfg cookie))%list
        (checkin_request cfg cookie proxy) = Response resp ->
      fst (sign rt w cfg email cookie proxy h)
      = Ok ("<b>" ++ email ++ "</b>: 解析响应失败: HTTP " ++ Str.of_Z (status_code resp)))
  /\ (http w (h ++ debug_events cfg (status_debug_line cfg))%list
        (status_request cfg cookie proxy) = Response resp ->
      fst (check_account_status rt w cfg email cookie proxy h)
      = Ok ("<b>" ++ email ++ "</b>: 解析响应失败 - HTTP "
            ++ Str.of_Z (status_code resp) ++ " ❌")).
Proof.
  intros Hp. split; [|split; [|split]].
  - repeat constructor.
  - reflexivity.
  - intros Hw. now apply sign_no_payload.
  - intros Hw. now apply status_no_payload.
Qed.

Lemma falsy_payload_witness :
  let resp := sample_response 200 (Ok (VDict [])) in
  let w := constant_world resp in
  no_payload (resp_json resp) = true
  /\ fst (sign sample_runtime w sample_config "a@x.io" "cookie-a" None [])
     = Ok "<b>a@x.io</b>: 解析响应失败: HTTP 200"
  /\ fst (check_account_status sample_runtime w sample_config "a@x.io" "cookie-a" None [])
     = Ok "<b>a@x.io</b>: 解析响应失败 - HTTP 200 ❌".
Proof.
  intros resp w. split; [reflexivity|].
  pose proof (falsy_payload_as_decode_failure sample_runtime w sample_config
                "a@x.io" "cookie-a" None [] resp eq_refl) as (_ & _ & Hs & Hc).
  split; [apply Hs | apply Hc]; reflexivity.
Defined.

(** C7: when the first numbered account is not configured, the list of
    accounts is empty and the run prints the one line that no accounts were
    found, sends no request, sleeps never and ends normally. *)
Theorem no_accounts_run (rt : runtime) (w : world) (cfg : config)
    (getenv : environ) (fuel : nat) :
  env_truthy (getenv "GLADOS_EMAIL_1") && env_truthy (getenv "GLADOS_COOKIE_1") = false ->
  load_accounts (S fuel) getenv 1 [] = Some []
  /\ exists run,
       multi_account_sign rt w cfg getenv (S fuel) = Some run
       /\ run [] = (Ok tt, [EPrint no_accounts_line])
       /\ outbound (snd (run [])) = [].
Proof.
  intros H. pose proof (load_accounts_none getenv fuel H) as L.
  split; [exact L|].
  unfold multi_account_sign. rewrite L.
  eexists. split; [reflexivity|]. split; reflexivity.
Qed.

Lemma no_accounts_run_witness :
  env_truthy (empty_env "GLADOS_EMAIL_1") && env_truthy (empty_env "GLADOS_COOKIE_1") = false
  /\ option_map (fun run => run [])
       (multi_account_sign sample_runtime offline_world sample_config empty_env 1)
     = Some (Ok tt, [EPrint no_accounts_line]).
Proof.
  split; [reflexivity|].
  destruct (no_accounts_run sample_runtime offline_world sample_config empty_env 0 eq_refl)
    as (_ & run & E1 & E2 & _).
  rewrite E1. cbn [option_map]. now rewrite E2.
Defined.

(** C1, as the code has it: the run sleeps once after each account's pair of
    calls, the last account included. A run for two accounts that ends
    normally has sent, in this order, account 1's check-in and status
    requests, a sleep, account 2's check-in and status requests and a second
    sleep, followed only by the notification request when both notification
    settings are present. *)
Theorem two_accounts_pacing (rt : runtime) (w : world) (cfg : config)
    (getenv : environ) (fuel : nat) (email1 cookie1 email2 cookie2 : string) :
  load_accounts fuel getenv 1 [] = Some [(email1, cookie1); (email2, cookie2)] ->
  let proxy := build_proxies getenv in
  exists run,
    multi_account_sign rt w cfg getenv fuel = Some run
    /\ forall evs,
         run [] = (Ok tt, evs) ->
         exists seconds1 seconds2 tail,
           outbound evs
           = ([ ERequest (checkin_request cfg cookie1 proxy);
                ERequest (status_request cfg cookie1 proxy);
                ESleep seconds1;
                ERequest (checkin_request cfg cookie2 proxy);
                ERequest (status_request cfg cookie2 proxy);
                ESleep seconds2 ] ++ tail)%list
           /\ sleeps evs = 2
           /\ ((notified getenv = false /\ tail = [])
               \/ (notified getenv = true
                   /\ exists rq, tail = [ERequest rq] /\ rq_method rq = "POST")).
Proof.
  intros L proxy. unfold multi_account_sign. rewrite L. fold proxy.
  eexists. split; [reflexivity|]. intros evs E.
  destruct (warning_run getenv []) as (evs0 & Ewarn & O0).
  cbn [app] in Ewarn. unfold bind in E. rewrite Ewarn in E.
  destruct (run_accounts rt w cfg proxy [(email1, cookie1); (email2, cookie2)] [] []
              evs0) as [[messages|x] h1] eqn:Erun; [|discriminate E].
  apply run_accounts_run in Erun as (evs1 & -> & P).
  destruct P as (s1 & sent1 & E1 & s2 & sent2 & E2 & E3).
  cbn in E3. subst sent2 sent1.
  destruct (notification_run rt w cfg getenv messages (evs0 ++ evs1)%list)
    as (r & evs2 & Enote & Hnote).
  rewrite Enote in E. injection E as _ <-.
  assert (Ho : outbound ((evs0 ++ evs1) ++ evs2)%list
               = ([ ERequest (checkin_request cfg cookie1 proxy);
                    ERequest (status_request cfg cookie1 proxy);
                    ESleep s1;
                    ERequest (checkin_request cfg cookie2 proxy);
                    ERequest (status_request cfg cookie2 proxy);
                    ESleep s2 ] ++ outbound evs2)%list).
  { rewrite !outbound_app, O0, E1. reflexivity. }
  exists s1, s2, (outbound evs2).
  split; [exact Ho|split].
  - rewrite <- sleeps_outbound, Ho.
    destruct Hnote as [(_ & -> & _)|[_ (rq & -> & _)]]; reflexivity.
  - destruct Hnote as [(Hn & Ht & _)|[Hn (rq & Ht & Hm)]]; [left|right]; eauto.
Qed.

Lemma two_accounts_pacing_witness :
  load_accounts 3 two_accounts_env 1 []
  = Some [("a@x.io", "cookie-a"); ("b@x.io", "cookie-b")]
  /\ exists run evs seconds1 seconds2,
       multi_account_sign sample_runtime offline_world sample_config two_accounts_env 3
       = Some run
       /\ run [] = (Ok tt, evs)
       /\ outbound evs
          = [ ERequest (checkin_request sample_config "cookie-a" None);
              ERequest (status_request sample_config "cookie-a" None);
              ESleep seconds1;
              ERequest (checkin_request sample_config "cookie-b" None);
              ERequest (status_request sample_config "cookie-b" None);
              ESleep seconds2 ]
       /\ sleeps evs = 2.
Proof.
  split; [reflexivity|].
  destruct (two_accounts_pacing sample_runtime offline_world sample_config
              two_accounts_env 3 "a@x.io" "cookie-a" "b@x.io" "cookie-b" eq_refl)
    as (run & Erun & shape).
  exists run, (snd (run [])).
  assert (E : run [] = (Ok tt, snd (run []))).
  { injection Erun as <-. reflexivity. }
  destruct (shape _ E) as (s1 & s2 & tail & Ho & Hs & [[_ Ht]|[Hn _]]);
    [|discriminate Hn].
  exists s1, s2. rewrite Ht, app_nil_r in Ho. auto.
Defined.

(** C1 fails as stated: with two accounts the run sleeps twice, and the
    second sleep comes after the last account's status request. *)
Lemma sleep_after_last_account :
  option_map (fun run => outbound (snd (run [])))
    (multi_account_sign sample_runtime offline_world sample_config two_accounts_env 3)
  = Some [ ERequest (checkin_request sample_config "cookie-a" None);
           ERequest (status_request sample_config "cookie-a" None);
           ESleep 5;
           ERequest (checkin_request sample_config "cookie-b" None);
           ERequest (status_request sample_config "cookie-b" None);
           ESleep 5 ]
  /\ option_map (fun run => sleeps (snd (run [])))
       (multi_account_sign sample_runtime offline_world sample_config two_accounts_env 3)
     = Some 2.
Proof. split; reflexivity. Qed.

(** ** Decimal texts *)































(** ** Rounding *)

Open Scope Z_scope.






(** ** Conversions to and from floats *)





Close Scope Z_scope.

(** ** Days-remaining formatter *)








Open Scope Z_scope.



Close Scope Z_scope.



Open Scope Z_scope.






Close Scope Z_scope.

(** * Further properties of the code *)

(** ** Outcome Translator *)

(** X1: a text message gets the already-checked-in line exactly when its
    lowered text has no [got] and has [repeat] or [already]. *)
Theorem already_checked_in_iff (rt : runtime) (s : string) (points : value) :
  translate_message rt (VStr s) points = Ok already_checked_in
  <-> Str.contains "got" (Str.lower s) = false
      /\ Str.contains "repeat" (Str.lower s) || Str.contains "already" (Str.lower s) = true.
Proof.
  unfold translate_message, already_checked_in. cbn [value_eq_str].
  destruct (String.eqb_spec s "Please Try Tomorrow") as [->|_].
  - split; [discriminate | intros [_ H]; vm_compute in H; discriminate].
  - rewrite msg_lower_str.
    destruct (Str.contains "got" (Str.lower s)).
    + split; [|intros [H _]; discriminate].
      destruct (negb _); destruct (py_str rt _); cbn [append]; discriminate.
    + destruct (_ || _).
      * split; auto.
      * split; [|intros [_ H]; discriminate].
        cbn [truthy py_str]. destruct (negb _); cbn [append]; discriminate.
Qed.

Lemma translate_raises (rt : runtime) (m points : value) :
  truthy m = true -> (forall s, m <> VStr s) ->
  translate_message rt m points = Raise (AttributeError m "lower").
Proof.
  intros T N. destruct m as [|b|z|f|s|l|items];
    try (unfold translate_message, msg_lower_of; cbn [value_eq_str];
         rewrite T; reflexivity).
  all: try (exfalso; eapply N; reflexivity).
  all: cbn in T; discriminate T.
Qed.

Lemma text_or_other (m : value) :
  (truthy m = true /\ forall s, m <> VStr s)
  \/ match m with VStr _ => true | _ => negb (truthy m) end = true.
Proof.
  destruct m; cbn [negb]; try (now right);
    match goal with
    | |- context [truthy ?v] => destruct (truthy v) eqn:T
    end; try (now right); left; split; try reflexivity; discriminate.
Qed.

Lemma translate_falsy (rt : runtime) (m points : value) :
  truthy m = false -> translate_message rt m points = Ok empty_placeholder.
Proof.
  intros T. unfold translate_message, msg_lower_of.
  destruct m as [|b|z|f|s|l|items]; cbn [value_eq_str]; rewrite ?T; try reflexivity.
  cbn in T. apply negb_false_iff, String.eqb_eq in T. now subst.
Qed.

(** a message without [got] is translated whatever the points are *)
Lemma translate_no_got (rt : runtime) (s : string) (points : value) :
  Str.contains "got" (Str.lower s) = false ->
  exists t, translate_message rt (VStr s) points = Ok t.
Proof.
  intros H. unfold translate_message. cbn [value_eq_str].
  destruct (s =? "Please Try Tomorrow"); [eauto|].
  rewrite msg_lower_str, H. destruct (_ || _); [eauto|].
  cbn [py_str]. destruct (truthy _); eauto.
Qed.

(** the values that have no text *)
Lemma py_str_raises (rt : runtime) (points : value) (e : exn) :
  py_str rt points = Raise e
  <-> (exists z, points = VInt z /\ (0 < int_max_str_digits rt)%Z
                 /\ (10 ^ Z.max (int_max_str_digits rt) 640 <= Z.abs z)%Z
                 /\ e = ValueError (VInt z))
      \/ (match points with
          | VFloat _ | VList _ | VDict _ => True
          | _ => False
          end /\ repr_other rt points = Raise e).
Proof.
  split.
  - destruct points as [|[]|z| | | |]; cbn [py_str]; try discriminate; auto.
    unfold int_text.
    destruct (Z.ltb_spec 0 (int_max_str_digits rt)); [|discriminate].
    destruct (Z.leb_spec (10 ^ Z.max (int_max_str_digits rt) 640) (Z.abs z));
      [|discriminate].
    cbn [andb]. intros [= <-]. left. eauto.
  - intros [(z & -> & H1 & H2 & ->)|[Hp Hr]].
    + cbn [py_str]. now apply int_text_raises.
    + destruct points; try contradiction; exact Hr.
Qed.

(** X2: the translator raises in two cases only: on a message that tests
    true and is not text, with the [AttributeError] of its missing [lower];
    and on a text message with [got] whose supplied points have no text: an
    integer with more digits than the limit of the interpreter, with a
    [ValueError], or a float, list or dict whose conversion raises. *)
Theorem translate_raises_iff (rt : runtime) (m points : value) (e : exn) :
  translate_message rt m points = Raise e
  <-> (truthy m = true /\ (forall s, m <> VStr s) /\ e = AttributeError m "lower")
      \/ (exists s,
            m = VStr s /\ Str.contains "got" (Str.lower s) = true
            /\ ((exists z, points = VInt z /\ (0 < int_max_str_digits rt)%Z
                           /\ (10 ^ Z.max (int_max_str_digits rt) 640 <= Z.abs z)%Z
                           /\ e = ValueError (VInt z))
                \/ (match points with
                    | VFloat _ | VList _ | VDict _ => True
                    | _ => False
                    end /\ repr_other rt points = Raise e))).
Proof.
  split.
  - intros R. destruct (text_or_other m) as [[T N]|D].
    + left. rewrite (translate_raises rt m points T N) in R.
      injection R as <-. auto.
    + right. destruct m as [| | | |s| |];
        try (cbn [negb] in D; apply negb_true_iff in D;
             rewrite translate_falsy in R by exact D; discriminate R).
      exists s. split; [reflexivity|].
      destruct (Str.contains "got" (Str.lower s)) eqn:G.
      * split; [reflexivity|]. apply py_str_raises.
        destruct (is_none points) eqn:Np.
        -- destruct (translate_total rt (VStr s) points eq_refl (or_introl Np)) as [t E].
           congruence.
        -- rewrite (translate_got_points rt s points G Np) in R.
           destruct (py_str rt points); congruence.
      * destruct (translate_no_got rt s points G) as [t E]. congruence.
  - intros [(T & N & ->)|(s & -> & G & Hp)].
    + now apply translate_raises.
    + apply py_str_raises in Hp.
      assert (Np : is_none points = false).
      { destruct points; try reflexivity. discriminate Hp. }
      now rewrite (translate_got_points rt s points G Np), Hp.
Qed.

(** X3: the line of a text message begins with the success words exactly
    when the lowered message has [got]: success can be read off the line. *)
Theorem success_line_iff (rt : runtime) (s : string) (points : value) (line : string) :
  translate_message rt (VStr s) points = Ok line ->
  (String.prefix "签到成功" line = true <-> Str.contains "got" (Str.lower s) = true).
Proof.
  unfold translate_message. cbn [value_eq_str].
  destruct (String.eqb_spec s "Please Try Tomorrow") as [->|_].
  - intros [= <-]. split; intros H; vm_compute in H; discriminate.
  - rewrite msg_lower_str.
    destruct (Str.contains "got" (Str.lower s)).
    + intros H. split; [reflexivity|intros _].
      destruct (negb _); destruct (py_str rt _); try discriminate H;
        injection H as <-; reflexivity.
    + intros H. split; [|discriminate].
      destruct (_ || _); [injection H as <-; intros P; vm_compute in P; discriminate|].
      cbn [py_str] in H. destruct (truthy _); injection H as <-; cbn; discriminate.
Qed.

Lemma success_line_witness :
  translate_message sample_runtime (VStr "Checkin! Got 5 Points") VNone
  = Ok "签到成功，获得5积分 🎉"
  /\ (String.prefix "签到成功" "签到成功，获得5积分 🎉" = true
      <-> Str.contains "got" (Str.lower "Checkin! Got 5 Points") = true).
Proof.
  split; [reflexivity|].
  apply (success_line_iff sample_runtime "Checkin! Got 5 Points" VNone). reflexivity.
Defined.

(** ** Account Client *)

Lemma sign_response (rt : runtime) (w : world) (cfg : config)
    (email cookie : string) (proxy : option (list (string * string)))
    (h : history) (resp : response) :
  http w (h ++ debug_events cfg (checkin_debug_line cfg cookie))%list
    (checkin_request cfg cookie proxy) = Response resp ->
  exists evs,
    sign rt w cfg email cookie proxy h
    = (match response_message rt resp with
       | Ok message => Ok (report_line email message)
       | Raise e => Raise e
       end, (h ++ evs)%list)
    /\ outbound evs = [ERequest (checkin_request cfg cookie proxy)].
Proof.
  intros Hw. unfold sign, response_message, report_line. run_m.
  rewrite debug_log_run, Hw. cbv beta iota. rewrite debug_log_run. decode_step.
  destruct (truthy _); cbn [negb].
  - destruct (value_get _ "message" _) as [m|x]; [|history_shape].
    destruct (value_get _ "points" _) as [p|x]; [|history_shape].
    destruct (translate_message rt m p); history_shape.
  - history_shape.
Qed.

Lemma sign_transport (rt : runtime) (w : world) (cfg : config)
    (email cookie : string) (proxy : option (list (string * string)))
    (h : history) (detail : string) :
  http w (h ++ debug_events cfg (checkin_debug_line cfg cookie))%list
    (checkin_request cfg cookie proxy) = RequestException detail ->
  exists evs,
    sign rt w cfg email cookie proxy h
    = (Ok (report_line email ("请求失败: " ++ detail)), (h ++ evs)%list)
    /\ outbound evs = [ERequest (checkin_request cfg cookie proxy)].
Proof.
  intros Hw. unfold sign, report_line. run_m. rewrite debug_log_run, Hw.
  history_shape.
Qed.

Lemma sign_other (rt : runtime) (w : world) (cfg : config)
    (email cookie : string) (proxy : option (list (string * string)))
    (h : history) (e : exn) :
  http w (h ++ debug_events cfg (checkin_debug_line cfg cookie))%list
    (checkin_request cfg cookie proxy) = OtherException e ->
  exists evs,
    sign rt w cfg email cookie proxy h = (Raise e, (h ++ evs)%list)
    /\ outbound evs = [ERequest (checkin_request cfg cookie proxy)].
Proof.
  intros Hw. unfold sign. run_m. rewrite debug_log_run, Hw.
  history_shape.
Qed.

Lemma response_message_raises (rt : runtime) (resp : response) :
  checkin_answer_ok (Response resp) = false ->
  exists obj attr, response_message rt resp = Raise (AttributeError obj attr).
Proof.
  unfold checkin_answer_ok, response_message, no_payload.
  destruct (resp_json resp) as [v|e]; cbn [truthy negb orb]; [|discriminate].
  destruct (truthy v) eqn:T; cbn [negb orb]; [|discriminate].
  destruct v as [| | | | | |items]; cbn [value_get]; eauto.
  intros H. destruct (dict_find items "message") as [m|]; [|discriminate].
  destruct (text_or_other m) as [[Tm N]|D].
  - destruct (dict_find items "points"); rewrite translate_raises by assumption; eauto.
  - destruct m; cbn [negb] in D, H; congruence.
Qed.

(** X4: whatever comes of it, [sign] makes the check-in call once, and no
    other call or pause. An exception of the call that is no
    [RequestException] passes through; a response that it cannot read (a
    payload that tests true and is no dict, or a [message] that tests true
    and is no text) makes it raise an [AttributeError]; and every line that
    it returns begins with the account's identifier, and after a transport
    error carries that error. *)
Theorem sign_outcome (rt : runtime) (w : world) (cfg : config)
    (email cookie : string) (proxy : option (list (string * string))) (h : history) :
  exists r evs,
    sign rt w cfg email cookie proxy h = (r, (h ++ evs)%list)
    /\ outbound evs = [ERequest (checkin_request cfg cookie proxy)]
    /\ (forall line, r = Ok line -> exists message, line = report_line email message)
    /\ match http w (h ++ debug_events cfg (checkin_debug_line cfg cookie))%list
               (checkin_request cfg cookie proxy) with
       | OtherException e => r = Raise e
       | RequestException detail =>
           forall line, r = Ok line -> line = report_line email ("请求失败: " ++ detail)
       | Response resp =>
           checkin_answer_ok (Response resp) = false ->
           exists obj attr, r = Raise (AttributeError obj attr)
       end.
Proof.
  destruct (http w _ _) as [resp|detail|e] eqn:Hw.
  - destruct (sign_response rt w cfg email cookie proxy h resp Hw) as (evs & -> & O).
    eexists _, evs. split; [reflexivity|]. split; [exact O|]. split.
    + intros line E. destruct (response_message rt resp) as [message|x];
        [|discriminate E].
      injection E as <-. eauto.
    + intros H. destruct (response_message_raises rt resp H) as (obj & attr & ->). eauto.
  - destruct (sign_transport rt w cfg email cookie proxy h detail Hw) as (evs & -> & O).
    eexists _, evs. split; [reflexivity|]. split; [exact O|].
    split; intros line [= <-]; eauto.
  - destruct (sign_other rt w cfg email cookie proxy h e Hw) as (evs & -> & O).
    eexists _, evs. split; [reflexivity|]. split; [exact O|].
    split; [discriminate | reflexivity].
Qed.

(** X5: a decoded payload that is a non-empty dict whose [message] is
    missing, or tests false (null, the empty string, 0, false, an empty
    list or dict), is reported with the empty-message placeholder, whatever
    its points. *)
Theorem sign_missing_message (rt : runtime) (w : world) (cfg : config)
    (email cookie : string) (proxy : option (list (string * string)))
    (h : history) (resp : response) (key : string) (v : value)
    (items : list (string * value)) :
  http w (h ++ debug_events cfg (checkin_debug_line cfg cookie))%list
    (checkin_request cfg cookie proxy) = Response resp ->
  resp_json resp = Ok (VDict ((key, v) :: items)) ->
  match dict_find ((key, v) :: items) "message" with
  | Some m => truthy m = false
  | None => True
  end ->
  fst (sign rt w cfg email cookie proxy h)
  = Ok ("<b>" ++ email ++ "</b>: 未知的签到结果: (empty message) ❓").
Proof.
  intros Hw Hj Hm.
  destruct (sign_response rt w cfg email cookie proxy h resp Hw) as (evs & -> & _).
  unfold response_message. rewrite Hj. cbn [truthy negb value_get fst].
  destruct (dict_find ((key, v) :: items) "message") as [m|];
    destruct (dict_find ((key, v) :: items) "points");
    rewrite translate_falsy by (assumption || reflexivity); reflexivity.
Qed.

Lemma sign_missing_message_witness :
  let resp := sample_response 200 (Ok (VDict [("code", VInt 1); ("points", VInt 3)])) in
  let w := constant_world resp in
  fst (sign sample_runtime w sample_config "a@x.io" "cookie-a" None [])
  = Ok "<b>a@x.io</b>: 未知的签到结果: (empty message) ❓".
Proof.
  intros resp w.
  apply (sign_missing_message sample_runtime w sample_config "a@x.io" "cookie-a" None []
           resp "code" (VInt 1) [("points", VInt 3)]); [reflexivity | reflexivity | exact I].
Defined.

Lemma left_days_line_shape (rt : runtime) (email : string) (data : value)
    (line : string) :
  left_days_line rt email data = Ok line ->
  exists message, line = report_line email message.
Proof.
  unfold left_days_line, report_line.
  destruct (value_item data "data") as [d|]; [|discriminate].
  destruct (value_item d "leftDays") as [x|]; [|discriminate].
  destruct (format_days rt x) as [left_days|]; [|discriminate].
  intros H. exists ("剩余 " ++ left_days ++ " 天 🗓️").
  injection H as <-. reflexivity.
Qed.

(** X6: whatever comes of it, [check_account_status] makes the status call
    once, and no other call or pause. An exception of the call that
    is no [RequestException] passes through; in every other case it raises
    nothing and returns a report line that begins with the account's
    identifier. *)
Theorem status_outcome (rt : runtime) (w : world) (cfg : config)
    (email cookie : string) (proxy : option (list (string * string))) (h : history) :
  exists r evs,
    check_account_status rt w cfg email cookie proxy h = (r, (h ++ evs)%list)
    /\ outbound evs = [ERequest (status_request cfg cookie proxy)]
    /\ match http w (h ++ debug_events cfg (status_debug_line cfg))%list
               (status_request cfg cookie proxy) with
       | OtherException e => r = Raise e
       | _ => exists message, r = Ok (report_line email message)
       end.
Proof.
  unfold check_account_status. run_m. rewrite debug_log_run.
  destruct (http w _ _) as [resp|e|x].
  - decode_step. destruct (truthy _); cbn [negb].
    + destruct (left_days_line _ _ _) as [line|x] eqn:E.
      * destruct (left_days_line_shape _ _ _ _ E) as [message ->].
        eexists _, _; (split; [history_eq | split; [outbound_solve | first [reflexivity | eexists; reflexivity]]]).
      * eexists _, _; (split; [history_eq | split; [outbound_solve | first [reflexivity | eexists; reflexivity]]]).
    + eexists _, _; (split; [history_eq | split; [outbound_solve | first [reflexivity | eexists; reflexivity]]]).
  - eexists _, _; (split; [history_eq | split; [outbound_solve | first [reflexivity | eexists; reflexivity]]]).
  - eexists _, _; (split; [history_eq | split; [outbound_solve | first [reflexivity | eexists; reflexivity]]]).
Qed.

Lemma status_response (rt : runtime) (w : world) (cfg : config)
    (email cookie : string) (proxy : option (list (string * string)))
    (h : history) (resp : response) (data : value) :
  http w (h ++ debug_events cfg (status_debug_line cfg))%list
    (status_request cfg cookie proxy) = Response resp ->
  resp_json resp = Ok data ->
  truthy data = true ->
  fst (check_account_status rt w cfg email cookie proxy h)
  = Ok match left_days_line rt email data with
       | Ok line => line
       | Raise e => "<b>" ++ email ++ "</b>: 解析响应失败 - " ++ exn_text rt e ++ " ❌"
       end.
Proof.
  intros Hw Hj T. unfold check_account_status. run_m.
  rewrite debug_log_run, Hw. cbv beta iota. decode_step. rewrite Hj, T. cbn [negb].
  now destruct (left_days_line rt email data).
Qed.

(** X7: for a decoded dict, the status line shows the formatted
    [data.leftDays]; a missing [data] or [leftDays] key, a [data] that is no
    dict, and a value that does not format each give the parse-failure line
    with the text of the exception, as a normal result. *)
Theorem status_fields (rt : runtime) (w : world) (cfg : config)
    (email cookie : string) (proxy : option (list (string * string)))
    (h : history) (resp : response) (key : string) (v : value)
    (items : list (string * value)) :
  http w (h ++ debug_events cfg (status_debug_line cfg))%list
    (status_request cfg cookie proxy) = Response resp ->
  resp_json resp = Ok (VDict ((key, v) :: items)) ->
  let failure e := Ok ("<b>" ++ email ++ "</b>: 解析响应失败 - " ++ exn_text rt e ++ " ❌") in
  let line := fst (check_account_status rt w cfg email cookie proxy h) in
  match dict_find ((key, v) :: items) "data" with
  | None => line = failure (KeyError "data")
  | Some (VDict inner) =>
      match dict_find inner "leftDays" with
      | None => line = failure (KeyError "leftDays")
      | Some days_str =>
          match format_days rt days_str with
          | Ok left_days => line = Ok ("<b>" ++ email ++ "</b>: 剩余 " ++ left_days ++ " 天 🗓️")
          | Raise e => line = failure e
          end
      end
  | Some other => line = failure (TypeError other)
  end.
Proof.
  intros Hw Hj failure line. subst line failure.
  rewrite (status_response rt w cfg email cookie proxy h resp _ Hw Hj eq_refl).
  unfold left_days_line. cbn [value_item].
  destruct (dict_find ((key, v) :: items) "data") as [d|]; [|reflexivity].
  destruct d as [| | | | | |inner]; try reflexivity.
  cbn [value_item]. destruct (dict_find inner "leftDays") as [x|]; [|reflexivity].
  destruct (format_days rt x); reflexivity.
Qed.

Lemma status_fields_witness :
  let resp := sample_response 200
                (Ok (VDict [("code", VInt 0);
                            ("data", VDict [("leftDays", VStr "3.50000000")])])) in
  let w := constant_world resp in
  fst (check_account_status sample_runtime w sample_config "a@x.io" "cookie-a" None [])
  = Ok "<b>a@x.io</b>: 剩余 3.5 天 🗓️".
Proof.
  intros resp w.
  exact (status_fields sample_runtime w sample_config "a@x.io" "cookie-a" None []
           resp "code" (VInt 0) [("data", VDict [("leftDays", VStr "3.50000000")])]
           eq_refl eq_refl).
Defined.

(** ** Configuration *)

Lemma load_accounts_step (getenv : environ) (fuel : nat) (i : Z)
    (accounts : list (string * string)) :
  load_accounts (S fuel) getenv i accounts
  = if configured getenv i
    then load_accounts fuel getenv (i + 1) (accounts ++ [account_at getenv i])%list
    else Some accounts.
Proof.
  unfold configured, account_at. cbn [load_accounts].
  destruct (getenv ("GLADOS_EMAIL_" ++ Str.of_Z i)) as [email|]; [|reflexivity].
  destruct (getenv ("GLADOS_COOKIE_" ++ Str.of_Z i)) as [cookie|];
    cbn [env_truthy]; [|now rewrite andb_false_r].
  destruct (email =? ""), (cookie =? ""); reflexivity.
Qed.

Lemma accounts_from_succ (getenv : environ) (i : Z) (n : nat) :
  accounts_from getenv i (S n) = account_at getenv i :: accounts_from getenv (i + 1) n.
Proof.
  unfold accounts_from. cbn [seq map]. rewrite Z.add_0_r. f_equal.
  rewrite <- seq_shift, map_map. apply map_ext. intros j. f_equal. lia.
Qed.

(** X8: the accounts read are those numbered from 1 up to the first number
    that is not configured (identifier or credential missing or empty);
    what is configured after that gap is not read. The loop ends as soon as
    it has more turns than there are accounts before the gap, and does not
    end within fewer. *)
Theorem load_accounts_first_gap (getenv : environ) (n : nat) :
  forall (i : Z) (accounts : list (string * string)) (fuel : nat),
    (forall j, (j < n)%nat -> configured getenv (i + Z.of_nat j) = true) ->
    (configured getenv (i + Z.of_nat n) = false ->
     (n < fuel)%nat ->
     load_accounts fuel getenv i accounts
     = Some (accounts ++ accounts_from getenv i n)%list)
    /\ ((fuel <= n)%nat -> load_accounts fuel getenv i accounts = None).
Proof.
  induction n as [|n IH]; intros i accounts fuel Hc.
  - split.
    + intros Hg Hf. destruct fuel as [|fuel]; [lia|].
      rewrite load_accounts_step. rewrite Z.add_0_r in Hg. rewrite Hg.
      unfold accounts_from. cbn. now rewrite app_nil_r.
    + intros Hf. now replace fuel with 0%nat by lia.
  - assert (H0 : configured getenv i = true).
    { rewrite <- (Z.add_0_r i). apply (Hc 0%nat). lia. }
    assert (Hc' : forall j, (j < n)%nat -> configured getenv (i + 1 + Z.of_nat j) = true).
    { intros j Hj. replace (i + 1 + Z.of_nat j)%Z with (i + Z.of_nat (S j))%Z by lia.
      apply Hc. lia. }
    destruct fuel as [|fuel]; [split; [lia | reflexivity]|].
    rewrite load_accounts_step, H0.
    destruct (IH (i + 1)%Z (accounts ++ [account_at getenv i])%list fuel Hc') as [A B].
    split.
    + intros Hg Hf. rewrite A.
      * now rewrite accounts_from_succ, <- app_assoc.
      * now replace (i + 1 + Z.of_nat n)%Z with (i + Z.of_nat (S n))%Z by lia.
      * lia.
    + intros Hf. apply B. lia.
Qed.

Lemma load_accounts_first_gap_witness :
  (forall j, (j < 2)%nat -> configured two_accounts_env (1 + Z.of_nat j) = true)
  /\ configured two_accounts_env (1 + Z.of_nat 2) = false
  /\ (2 < 5)%nat
  /\ load_accounts 5 two_accounts_env 1 []
     = Some ([] ++ accounts_from two_accounts_env 1 2)%list.
Proof.
  assert (H : forall j, (j < 2)%nat -> configured two_accounts_env (1 + Z.of_nat j) = true).
  { intros [|[|j]] Hj; [reflexivity | reflexivity | lia]. }
  split; [exact H|]. split; [reflexivity|]. split; [lia|].
  apply (proj1 (load_accounts_first_gap two_accounts_env 2 1 [] 5 H)); [reflexivity | lia].
Defined.

(** X9: [build_proxies] gives [None] exactly when neither proxy variable has
    a non-empty value; otherwise it gives the non-empty ones, [http] first,
    each under its scheme, and never an empty address. *)
Theorem build_proxies_entries (getenv : environ) :
  (build_proxies getenv = None
   <-> env_truthy (getenv "HTTP_PROXY") = false
       /\ env_truthy (getenv "HTTPS_PROXY") = false)
  /\ forall proxies,
       build_proxies getenv = Some proxies ->
       proxies
       = ((if env_truthy (getenv "HTTP_PROXY")
           then [("http", match getenv "HTTP_PROXY" with Some s => s | None => "" end)]
           else [])
          ++ (if env_truthy (getenv "HTTPS_PROXY")
              then [("https", match getenv "HTTPS_PROXY" with Some s => s | None => "" end)]
              else []))%list
       /\ Forall (fun entry => snd entry <> "") proxies.
Proof.
  unfold build_proxies.
  destruct (getenv "HTTP_PROXY") as [a|], (getenv "HTTPS_PROXY") as [b|];
    cbn [env_truthy];
    try destruct (String.eqb_spec a ""); try destruct (String.eqb_spec b "");
    cbn [negb app];
    (split; [split; [try discriminate; auto | intros [? ?]; try discriminate; auto]|]);
    intros proxies E; try discriminate; injection E as <-;
    (split; [reflexivity | repeat constructor; assumption]).
Qed.

(** ** Session Orchestrator *)

Lemma sign_line_of (rt : runtime) (w : world) (cfg : config)
    (email cookie : string) (proxy : option (list (string * string)))
    (h h' : history) (line : string) :
  sign rt w cfg email cookie proxy h = (Ok line, h') ->
  line_of (email, cookie) line.
Proof.
  destruct (http w (h ++ debug_events cfg (checkin_debug_line cfg cookie))%list
              (checkin_request cfg cookie proxy)) as [resp|detail|e] eqn:Hw.
  - destruct (sign_response rt w cfg email cookie proxy h resp Hw) as (evs & -> & _).
    destruct (response_message rt resp) as [message|]; [|discriminate].
    intros [= <- _]. now exists message.
  - destruct (sign_transport rt w cfg email cookie proxy h detail Hw) as (evs & -> & _).
    intros [= <- _]. now eexists.
  - destruct (sign_other rt w cfg email cookie proxy h e Hw) as (evs & -> & _).
    discriminate.
Qed.

Lemma status_line_of (rt : runtime) (w : world) (cfg : config)
    (email cookie : string) (proxy : option (list (string * string)))
    (h h' : history) (line : string) :
  check_account_status rt w cfg email cookie proxy h = (Ok line, h') ->
  line_of (email, cookie) line.
Proof.
  unfold check_account_status, line_of. run_m. rewrite debug_log_run.
  destruct (http w _ _) as [resp|e|x].
  - decode_step. destruct (truthy _); cbn [negb].
    + destruct (left_days_line _ _ _) as [l|x] eqn:E.
      * destruct (left_days_line_shape _ _ _ _ E) as [message ->].
        run_m. intros [= <- _]. now exists message.
      * run_m. intros [= <- _]. now eexists.
    + run_m. intros [= <- _]. now eexists.
  - run_m. intros [= <- _]. now eexists.
  - run_m. discriminate.
Qed.

(** X10: when the loop over the accounts ends normally, it has added to
    each of the two result lists one line per account, in the order of the
    accounts, each beginning with the identifier of its account. *)
Theorem run_accounts_lines (rt : runtime) (w : world) (cfg : config)
    (proxy : option (list (string * string))) (accounts : list (string * string)) :
  forall sign_messages status_messages h messages h',
    run_accounts rt w cfg proxy accounts sign_messages status_messages h
    = (Ok messages, h') ->
    exists sign_lines status_lines,
      fst messages = (sign_messages ++ sign_lines)%list
      /\ snd messages = (status_messages ++ status_lines)%list
      /\ Forall2 line_of accounts sign_lines
      /\ Forall2 line_of accounts status_lines.
Proof.
  induction accounts as [|[email cookie] rest IH]; intros sm stm h messages h'.
  - cbn [run_accounts]. run_m. intros [= <- _].
    exists [], []. cbn [fst snd]. rewrite !app_nil_r. repeat split; constructor.
  - cbn [run_accounts]. run_m.
    destruct (sign rt w cfg email cookie proxy h) as [[line1|e] h1] eqn:Es; [|discriminate].
    pose proof (sign_line_of _ _ _ _ _ _ _ _ _ Es) as L1.
    destruct (check_account_status rt w cfg email cookie proxy h1)
      as [[line2|e] h2] eqn:Ec; [|discriminate].
    pose proof (status_line_of _ _ _ _ _ _ _ _ _ Ec) as L2.
    intros E. destruct (IH _ _ _ _ _ E) as (l1 & l2 & E1 & E2 & F1 & F2).
    exists (line1 :: l1), (line2 :: l2).
    rewrite E1, E2, <- !app_assoc. repeat split; constructor; assumption.
Qed.

Lemma run_accounts_lines_witness :
  exists messages h',
    run_accounts sample_runtime offline_world sample_config None
      [("a@x.io", "cookie-a"); ("b@x.io", "cookie-b")] [] [] [] = (Ok messages, h')
    /\ exists sign_lines status_lines,
         fst messages = ([] ++ sign_lines)%list
         /\ snd messages = ([] ++ status_lines)%list
         /\ Forall2 line_of [("a@x.io", "cookie-a"); ("b@x.io", "cookie-b")] sign_lines
         /\ Forall2 line_of [("a@x.io", "cookie-a"); ("b@x.io", "cookie-b")] status_lines.
Proof.
  eexists _, _. split; [reflexivity|].
  apply (run_accounts_lines sample_runtime offline_world sample_config None
           [("a@x.io", "cookie-a"); ("b@x.io", "cookie-b")] [] [] []
           _ _ eq_refl).
Defined.

Lemma requests_outbound (h : history) : requests_of (outbound h) = requests_of h.
Proof.
  unfold requests_of, outbound. induction h as [|[line|rq|s] h IH]; cbn; auto.
  now rewrite IH.
Qed.

Lemma paced_requests (cfg : config) (proxy : option (list (string * string)))
    (accounts : list (string * string)) :
  forall sent,
    paced cfg proxy accounts sent ->
    List.length (requests_of sent) = 2 * List.length accounts.
Proof.
  induction accounts as [|[email cookie] rest IH]; intros sent P.
  - cbn in P. now subst.
  - destruct P as (seconds & sent' & -> & P). pose proof (IH _ P) as E.
    unfold requests_of in *. cbn [filter is_request List.length]. lia.
Qed.

Lemma sleeps_app (a b : history) : sleeps (a ++ b)%list = sleeps a + sleeps b.
Proof. unfold sleeps. now rewrite filter_app, length_app. Qed.

Lemma requests_app (a b : history) :
  requests_of (a ++ b)%list = (requests_of a ++ requests_of b)%list.
Proof. apply filter_app. Qed.

(** X11: a run for any number of accounts that ends normally has sent,
    per account and in their order, the check-in request, the status request
    and one sleep, every request with the same proxy setting; so it has
    slept as often as there are accounts and sent two requests per account,
    plus the notification request, last, when both notification settings are
    present. *)
Theorem accounts_pacing (rt : runtime) (w : world) (cfg : config)
    (getenv : environ) (fuel : nat) (account : string * string)
    (rest : list (string * string)) :
  load_accounts fuel getenv 1 [] = Some (account :: rest) ->
  exists run,
    multi_account_sign rt w cfg getenv fuel = Some run
    /\ forall evs,
         run [] = (Ok tt, evs) ->
         exists sent tail,
           outbound evs = (sent ++ tail)%list
           /\ paced cfg (build_proxies getenv) (account :: rest) sent
           /\ sleeps evs = List.length (account :: rest)
           /\ List.length (requests_of evs)
              = 2 * List.length (account :: rest) + (if notified getenv then 1 else 0)
           /\ ((notified getenv = false /\ tail = [])
               \/ (notified getenv = true
                   /\ exists rq, tail = [ERequest rq] /\ rq_method rq = "POST")).
Proof.
  intros L. unfold multi_account_sign. rewrite L.
  eexists. split; [reflexivity|]. intros evs E.
  destruct (warning_run getenv []) as (evs0 & Ewarn & O0).
  cbn [app] in Ewarn. unfold bind in E. rewrite Ewarn in E.
  destruct (run_accounts rt w cfg (build_proxies getenv) (account :: rest) [] [] evs0)
    as [[messages|x] h1] eqn:Erun; [|discriminate E].
  apply run_accounts_run in Erun as (evs1 & -> & P).
  destruct (notification_run rt w cfg getenv messages (evs0 ++ evs1)%list)
    as (r & evs2 & Enote & Hnote).
  rewrite Enote in E. injection E as _ <-.
  assert (Ho : outbound ((evs0 ++ evs1) ++ evs2)%list
               = (outbound evs1 ++ outbound evs2)%list).
  { rewrite !outbound_app, O0. reflexivity. }
  exists (outbound evs1), (outbound evs2).
  split; [exact Ho|split; [exact P|split; [|split]]].
  - rewrite <- sleeps_outbound, Ho, sleeps_app, (paced_sleeps _ _ _ _ P).
    destruct Hnote as [(_ & -> & _)|[_ (rq & -> & _)]]; cbn; lia.
  - rewrite <- requests_outbound, Ho, requests_app, length_app, (paced_requests _ _ _ _ P).
    destruct Hnote as [(-> & -> & _)|[-> (rq & -> & _)]]; cbn; lia.
  - destruct Hnote as [(Hn & Ht & _)|[Hn (rq & Ht & Hm)]]; [left|right]; eauto.
Qed.

Lemma accounts_pacing_witness :
  load_accounts 3 two_accounts_env 1 []
  = Some [("a@x.io", "cookie-a"); ("b@x.io", "cookie-b")]
  /\ exists run evs,
       multi_account_sign sample_runtime offline_world sample_config two_accounts_env 3
       = Some run
       /\ run [] = (Ok tt, evs)
       /\ sleeps evs = 2
       /\ List.length (requests_of evs) = 4.
Proof.
  split; [reflexivity|].
  destruct (accounts_pacing sample_runtime offline_world sample_config two_accounts_env 3
              ("a@x.io", "cookie-a") [("b@x.io", "cookie-b")] eq_refl)
    as (run & Erun & shape).
  exists run, (snd (run [])).
  assert (E : run [] = (Ok tt, snd (run []))).
  { injection Erun as <-. reflexivity. }
  destruct (shape _ E) as (sent & tail & _ & _ & S & R & _).
  repeat split; assumption.
Defined.

(** X12: when the first account's check-in answer is one the client cannot
    read, the run ends with the [AttributeError] after that one request: no
    status request, no sleep, no later account and no notification. *)
Theorem run_aborts_on_unreadable_answer (rt : runtime) (w : world) (cfg : config)
    (getenv : environ) (fuel : nat) (email cookie : string)
    (rest : list (string * string)) :
  load_accounts fuel getenv 1 [] = Some ((email, cookie) :: rest) ->
  (forall h,
      checkin_answer_ok
        (http w h (checkin_request cfg cookie (build_proxies getenv))) = false) ->
  exists run evs obj attr,
    multi_account_sign rt w cfg getenv fuel = Some run
    /\ run [] = (Raise (AttributeError obj attr), evs)
    /\ outbound evs = [ERequest (checkin_request cfg cookie (build_proxies getenv))].
Proof.
  intros L Hw. unfold multi_account_sign. rewrite L.
  destruct (warning_run getenv []) as (evs0 & Ewarn & O0).
  destruct (http w (([] ++ evs0)
                    ++ debug_events cfg (checkin_debug_line cfg cookie))%list
              (checkin_request cfg cookie (build_proxies getenv)))
    as [resp|detail|x] eqn:Ha.
  - destruct (sign_response rt w cfg email cookie (build_proxies getenv)
                ([] ++ evs0)%list resp Ha) as (evs1 & Es & O1).
    pose proof (Hw (([] ++ evs0) ++ debug_events cfg (checkin_debug_line cfg cookie))%list)
      as Hbad.
    rewrite Ha in Hbad.
    destruct (response_message_raises rt resp Hbad) as (obj & attr & Er).
    rewrite Er in Es.
    eexists. exists (([] ++ evs0) ++ evs1)%list, obj, attr.
    split; [reflexivity|]. split.
    + unfold bind. rewrite Ewarn. cbn [run_accounts]. unfold bind. rewrite Es. reflexivity.
    + rewrite !outbound_app, O0, O1. reflexivity.
  - pose proof (Hw (([] ++ evs0) ++ debug_events cfg (checkin_debug_line cfg cookie))%list)
      as Hbad.
    rewrite Ha in Hbad. discriminate.
  - pose proof (Hw (([] ++ evs0) ++ debug_events cfg (checkin_debug_line cfg cookie))%list)
      as Hbad.
    rewrite Ha in Hbad. discriminate.
Qed.

Lemma run_aborts_witness :
  let w := constant_world (sample_response 200 (Ok (VList [VInt 1]))) in
  load_accounts 3 two_accounts_env 1 []
  = Some [("a@x.io", "cookie-a"); ("b@x.io", "cookie-b")]
  /\ exists run evs obj attr,
       multi_account_sign sample_runtime w sample_config two_accounts_env 3 = Some run
       /\ run [] = (Raise (AttributeError obj attr), evs)
       /\ outbound evs
          = [ERequest (checkin_request sample_config "cookie-a"
                         (build_proxies two_accounts_env))].
Proof.
  intros w. split; [reflexivity|].
  apply (run_aborts_on_unreadable_answer sample_runtime w sample_config two_accounts_env 3
           "a@x.io" "cookie-a" [("b@x.io", "cookie-b")]); reflexivity.
Defined.

(** ** Notification sink *)

Lemma contains_refl (s : string) : Str.contains s s = true.
Proof.
  apply contains_prefix. rewrite <- (append_nil_r s) at 2. apply prefix_append.
Qed.

Lemma contains_join (sep line : string) (lines : list string) :
  In line lines -> Str.contains line (Str.join sep lines) = true.
Proof.
  induction lines as [|x r IH]; intros H; [destruct H|].
  cbn [Str.join]. destruct r as [|y r].
  - destruct H as [->|[]]. apply contains_refl.
  - destruct H as [->|H].
    + apply contains_append_l, contains_refl.
    + apply contains_append_r, contains_append_r, IH, H.
Qed.

(** X13: [send_notification] makes one POST call to the bot's [sendMessage]
    address, without headers of its own and without the proxy setting, whose
    form holds the chat id, the HTML parse mode and a text in which every
    check-in line and every status line occurs. An exception of the call
    that is no [RequestException] passes through; otherwise nothing is
    raised, a transport error or a status from 400 to 599 is printed, and
    nothing else is. *)
Theorem notification_delivery (rt : runtime) (w : world) (cfg : config)
    (sign_messages status_messages : list string) (bot_token chat_id : string)
    (h : history) :
  let text :=
    notification_text (strftime_minute rt (utcnow w h + 8 * 3600))
      sign_messages status_messages in
    let rq := {| rq_method := "POST";
                 rq_url := "https://api.telegram.org/bot" ++ bot_token ++ "/sendMessage";
                 rq_headers := [];
                 rq_data := FormBody [("chat_id", chat_id); ("text", text);
                                      ("parse_mode", "HTML")];
                 rq_proxies := None;
                 rq_timeout := TIMEOUT cfg |} in
    send_notification rt w cfg sign_messages status_messages bot_token chat_id h
    = (match http w h rq with
       | OtherException e => Raise e
       | _ => Ok tt
       end,
       (h ++ ERequest rq
          :: match http w h rq with
             | OtherException _ => []
             | RequestException e => [EPrint ("发送 Telegram 消息失败: " ++ e)]
             | Response response =>
                 if (400 <=? status_code response)%Z && (status_code response <? 600)%Z
                 then [EPrint ("发送 Telegram 消息失败: " ++ resp_http_error response)]
                 else []
             end)%list)
    /\ forall line,
         In line (sign_messages ++ status_messages)%list ->
         Str.contains line text = true.
Proof.
  cbv zeta. split.
  - unfold send_notification, notification_text. run_m.
    destruct (http w _ _) as [resp|e|x].
    + destruct (_ && _); run_m; rewrite <- ?app_assoc; reflexivity.
    + now rewrite <- app_assoc.
    + reflexivity.
  - intros line H. apply in_app_or in H. unfold notification_text.
    do 4 apply contains_append_r.
    destruct H as [H|H].
    + apply contains_append_l. do 2 apply contains_append_r.
      now apply contains_join.
    + do 2 apply contains_append_r. apply contains_append_l.
      do 3 apply contains_append_r. now apply contains_join.
Qed.

(** ** Response Decoder *)

Lemma len_take (n : nat) (s : string) : Str.len (Str.take n s) <= n.
Proof.
  revert n. induction s as [|c s IH]; intros n; cbn [Str.take Str.len]; [lia|].
  destruct (Str.is_cont_byte c) eqn:E; cbn [Str.len]; rewrite ?E.
  - specialize (IH n). lia.
  - destruct n as [|n]; cbn [Str.len]; rewrite ?E; [lia|]. specialize (IH n). lia.
Qed.

Lemma prefix_take (n : nat) (s : string) : String.prefix (Str.take n s) s = true.
Proof.
  revert n. induction s as [|c s IH]; intros n; cbn [Str.take]; [reflexivity|].
  destruct (Str.is_cont_byte c).
  - now rewrite prefix_cons, Ascii.eqb_refl, IH.
  - destruct n as [|n]; [apply prefix_nil|].
    now rewrite prefix_cons, Ascii.eqb_refl, IH.
Qed.

(** X14: [safe_json] raises nothing and sends nothing. It hands back the
    decoded payload and leaves the history as it is, except that a failed
    decode in debug mode prints one line; the body shown in that line is the
    beginning of the body, cut to at most 200 characters. *)
Theorem safe_json_effects (rt : runtime) (cfg : config) (resp : response)
    (ctx : string) (h : history) :
  let head := Str.take 200 (resp_text resp) in
  (Str.len head <= 200 /\ String.prefix head (resp_text resp) = true)
  /\ match resp_json resp with
     | Ok v => safe_json rt cfg resp ctx h = (Ok v, h)
     | Raise e =>
         exists before_head,
           safe_json rt cfg resp ctx h
           = (Ok VNone,
              (h ++ if DEBUG cfg then [EPrint (before_head ++ repr_str rt head)] else [])%list)
     end.
Proof.
  cbv zeta. split; [split; [apply len_take | apply prefix_take]|].
  unfold safe_json. destruct (resp_json resp) as [v|e]; [reflexivity|].
  eexists. run_m. rewrite debug_log_run. unfold debug_events.
  destruct (DEBUG cfg); [|reflexivity].
  rewrite <- !append_assoc. reflexivity.
Qed.

(** ** Days-remaining formatter *)

(** X15: [format_days] fails exactly when [float()] fails on its argument,
    and then with the same exception: the later [int()] can not fail, since
    [is_integer] is false of an infinity and of a NaN. So it raises a
    [TypeError] for [None], a list or a dict, a [ValueError] for a text that
    is no number, an [OverflowError] for an integer from [2^1024] on; a
    text of decimal digits that are not ASCII is read as a number. Given a
    float it always returns a text, which for an infinity or a NaN is
    [inf], [-inf] or [nan]. *)
Theorem format_days_failures (rt : runtime) (days_str : value) :
  (forall e, format_days rt days_str = Raise e <-> PyFloat.of_value rt days_str = Raise e)
  /\ (forall f, exists text, format_days rt (VFloat f) = Ok text)
  /\ format_days rt (VFloat S754_nan) = Ok "nan"
  /\ format_days rt (VFloat (S754_infinity false)) = Ok "inf"
  /\ format_days rt (VFloat (S754_infinity true)) = Ok "-inf"
  /\ format_days rt VNone = Raise (TypeError VNone)
  /\ (forall l, format_days rt (VList l) = Raise (TypeError (VList l)))
  /\ (forall items, format_days rt (VDict items) = Raise (TypeError (VDict items)))
  /\ format_days rt (VStr "") = Raise (ValueError (VStr ""))
  /\ format_days rt (VStr "3 days") = Raise (ValueError (VStr "3 days"))
  /\ format_days rt (VInt (2 ^ 1024)) = Raise (OverflowError (VInt (2 ^ 1024)))
  /\ format_days sample_runtime (VStr "３.５") = Ok "3.5".
Proof.
  assert (T : forall f, exists text,
               (if PyFloat.is_integer f
                then match PyFloat.to_int f with
                     | Ok n => Ok (Str.of_Z n)
                     | Raise e => Raise e
                     end
                else Ok (Str.rstrip "." (Str.rstrip "0" (PyFloat.format_8f f))))
               = Ok text).
  { intros [s|s| |s m e]; cbn [PyFloat.is_integer PyFloat.to_int]; eauto.
    destruct (if (0 <=? e)%Z then true else _); eauto. }
  split; [|split; [|repeat split]].
  - intros e. unfold format_days.
    destruct (PyFloat.of_value rt days_str) as [f|x]; [|split; intros H; congruence].
    destruct (T f) as [text ->]. split; discriminate.
  - intros f. exact (T f).
Qed.

